(** * The admin registration layer of the admission portal

    A shallow embedding of [admission/admin.py]: the derived list columns
    ([application_count], [has_payment], [file_count], [application_link]),
    the preview column of the nested file editor ([file_preview]) and the
    four bulk status actions, over an explicit record store.

    The module is Django configuration.  What the framework does for it
    (query sets, [format_html], [reverse], the forms built from [fields]
    and [readonly_fields]) is written out below as plain functions, each
    with a note saying which framework behaviour it stands for. *)

From Stdlib Require Import ZArith List String Ascii Bool Lia.
From Stdlib Require Import DecimalString Permutation.
Import ListNotations.

Local Open Scope string_scope.
Local Open Scope Z_scope.

(** ** Exceptions and results *)

(** The exceptions that the calls made by this module can raise.  None of
    them is declared by the module itself. *)
Inductive exn : Type :=
| NoReverseMatch (viewname : string)
| DoesNotExist (model : string)
| IndexError
| ValueError.

Inductive result (A : Type) : Type :=
| Ok (a : A)
| Raise (e : exn).

Arguments Ok {A} a.
Arguments Raise {A} e.

Definition bind {A B : Type} (m : result A) (k : A -> result B) : result B :=
  match m with
  | Ok a => k a
  | Raise e => Raise e
  end.

Notation "x <- m ;; k" := (bind m (fun x => k))
  (at level 61, m at next level, right associativity).

Definition returns {A : Type} (m : result A) : Prop := exists a, m = Ok a.

(** ** Text *)

Module Text.

(** The double quote, the apostrophe and the two braces, as characters
    and as one-character strings. *)
Definition dquote_char : ascii := ascii_of_nat 34.
Definition squote_char : ascii := ascii_of_nat 39.
Definition lbrace : ascii := ascii_of_nat 123.
Definition rbrace : ascii := ascii_of_nat 125.

Definition dq : string := String dquote_char EmptyString.

(** Python's [str] on an integer. *)
Definition str_int (z : Z) : string := NilZero.string_of_int (Z.to_int z).

(** [html.escape(s, quote=True)], which is what Django's [escape] calls. *)
Definition escape_char (c : ascii) : string :=
  if Ascii.eqb c "&" then "&amp;"
  else if Ascii.eqb c "<" then "&lt;"
  else if Ascii.eqb c ">" then "&gt;"
  else if Ascii.eqb c dquote_char then "&quot;"
  else if Ascii.eqb c squote_char then "&#x27;"
  else String c EmptyString.

Fixpoint escape (s : string) : string :=
  match s with
  | EmptyString => EmptyString
  | String c rest => escape_char c ++ escape rest
  end.

(** The values this module passes to [format_html]: plain strings and
    integers. *)
Inductive pyval : Type :=
| Str (s : string)
| Int (z : Z).

Definition str (v : pyval) : string :=
  match v with
  | Str s => s
  | Int z => str_int z
  end.

(** [conditional_escape] on a value that is not marked safe, which none
    of these is: [escape(str(value))]. *)
Definition conditional_escape (v : pyval) : string := escape (str v).

(** [str.format] with positional arguments, for templates whose
    replacement fields are all the automatic field [{}].  A doubled brace
    is a literal brace; any other use of a brace is a [ValueError]; a
    field with no argument left is an [IndexError]; surplus arguments are
    ignored. *)
Fixpoint format (tmpl : string) (args : list string) : result string :=
  match tmpl with
  | EmptyString => Ok EmptyString
  | String c rest =>
      if Ascii.eqb c lbrace then
        match rest with
        | String d rest' =>
            if Ascii.eqb d rbrace then
              match args with
              | [] => Raise IndexError
              | a :: args' => s <- format rest' args' ;; Ok (a ++ s)
              end
            else if Ascii.eqb d lbrace then
              s <- format rest' args ;; Ok (String lbrace s)
            else Raise ValueError
        | EmptyString => Raise ValueError
        end
      else if Ascii.eqb c rbrace then
        match rest with
        | String d rest' =>
            if Ascii.eqb d rbrace then
              s <- format rest' args ;; Ok (String rbrace s)
            else Raise ValueError
        | EmptyString => Raise ValueError
        end
      else s <- format rest args ;; Ok (String c s)
  end.

(** [django.utils.html.format_html]: the arguments are escaped, then the
    template is formatted.  (The result is marked safe; the mark plays no
    part here, since no result is fed back into [format_html].)  A call
    without arguments formats the template as it stands, which is what
    Django does up to version 5; version 6 refuses such a call. *)
Definition format_html (tmpl : string) (args : list pyval) : result string :=
  format tmpl (map conditional_escape args).

(** Does [s] begin with [p]?  Does [p] occur in [s]? *)
Fixpoint starts_with (p s : string) : bool :=
  match p, s with
  | EmptyString, _ => true
  | String a p', String b s' => Ascii.eqb a b && starts_with p' s'
  | String _ _, EmptyString => false
  end.

Fixpoint contains (p s : string) : bool :=
  starts_with p s ||
  match s with
  | EmptyString => false
  | String _ s' => contains p s'
  end.

(** What a reader of the page gets back from escaped text: the five
    character references that [escape] writes, decoded. *)
Fixpoint unescape (s : string) : string :=
  match s with
  | EmptyString => EmptyString
  | String c rest =>
      if Ascii.eqb c "&" then
        match rest with
        | String "a" (String "m" (String "p" (String ";" r))) =>
            String "&" (unescape r)
        | String "l" (String "t" (String ";" r)) => String "<" (unescape r)
        | String "g" (String "t" (String ";" r)) => String ">" (unescape r)
        | String "q" (String "u" (String "o" (String "t" (String ";" r)))) =>
            String dquote_char (unescape r)
        | String "#" (String "x" (String "2" (String "7" (String ";" r)))) =>
            String squote_char (unescape r)
        | _ => String c (unescape rest)
        end
      else String c (unescape rest)
  end.

(** A string is plain when escaping has nothing to replace in it. *)
Fixpoint plain (s : string) : bool :=
  match s with
  | EmptyString => true
  | String c rest => String.eqb (escape_char c) (String c EmptyString) && plain rest
  end.

(** Decimal digits. *)
Definition is_digit (c : ascii) : bool :=
  (48 <=? nat_of_ascii c)%nat && (nat_of_ascii c <=? 57)%nat.

Fixpoint has_digit (s : string) : bool :=
  match s with
  | EmptyString => false
  | String c rest => is_digit c || has_digit rest
  end.

End Text.

Import Text.

(** ** The records

    Modelled from the spec: [admission/models.py] is not part of the
    sources at hand.  The records below carry the fields that [admin.py]
    names in its [list_display], [fieldsets] and [fields], with the types
    the spec's data model gives them: primary keys and foreign keys are
    integers, timestamps are integers, amounts are integers (whole
    currency units, as in the spec's worked example), a status is the
    string stored in the column. *)

Module Department.
Record t : Type := mk {
  id : Z;
  code : string;
  name : string;
  seats : Z;
  total_credits : Z;
  per_credit_fee : Z
}.
End Department.

Module Application.
Record t : Type := mk {
  id : Z;
  full_name : string;
  email : string;
  phone : string;
  address : string;
  department : Z;
  program : string;
  previous_education : string;
  cgpa : Z;
  status : string;
  applied_at : Z;
  updated_at : Z;
  notes : string
}.

(** The assignment [status = s] of an SQL [UPDATE]: one column is
    written, the row is otherwise carried over. *)
Definition set_status (s : string) (a : t) : t :=
  mk (id a) (full_name a) (email a) (phone a) (address a) (department a)
     (program a) (previous_education a) (cgpa a) s (applied_at a)
     (updated_at a) (notes a).
End Application.

(** Modelled from the spec: a file field holds the name of the stored
    file (empty when nothing is attached) and answers [url] with the
    address the storage serves it at.  Its truth value is that of its
    name. *)
Module FieldFile.
Record t : Type := mk {
  name : string;
  url : string
}.

Definition truthy (f : t) : bool :=
  match name f with
  | EmptyString => false
  | String _ _ => true
  end.
End FieldFile.

Module ApplicationFile.
Record t : Type := mk {
  id : Z;
  application : Z;
  file : FieldFile.t;
  uploaded_at : Z
}.

Definition set_file (f : FieldFile.t) (x : t) : t :=
  mk (id x) (application x) f (uploaded_at x).
Definition set_uploaded_at (ts : Z) (x : t) : t :=
  mk (id x) (application x) (file x) ts.
End ApplicationFile.

Module Payment.
Record t : Type := mk {
  id : Z;
  application : Z;
  amount : Z;
  currency : string;
  status : string;
  payment_method : string;
  transaction_id : string;
  paid_at : option Z;
  created_at : Z
}.
End Payment.

(** The record store the framework queries and updates on behalf of the
    module: one table per model. *)
Record Store : Type := mkStore {
  departments : list Department.t;
  applications : list Application.t;
  application_files : list ApplicationFile.t;
  payments : list Payment.t
}.

(** The four values of [Application.status]. *)
Definition status_choices : list string :=
  ["pending"; "under_review"; "approved"; "rejected"].

(** ** Query sets

    A query set is a lazy query: a [WHERE] clause over the rows of one
    table, evaluated against the table at the moment a terminal operation
    ([count], [exists], [aggregate], [update]) runs. *)

Module QuerySet.
Section Ops.
Context {T : Type}.

Definition t : Type := T -> bool.

Definition all : t := fun _ => true.

Definition filter (q : t) (p : T -> bool) : t := fun r => q r && p r.

Definition rows (table : list T) (q : t) : list T := List.filter q table.

Definition count (table : list T) (q : t) : Z :=
  Z.of_nat (List.length (rows table q)).

Definition exists_ (table : list T) (q : t) : bool :=
  match rows table q with
  | [] => false
  | _ :: _ => true
  end.

(** [aggregate(total=Sum(column))['total']]: SQL's [SUM] is [NULL]
    ([None]) over no rows. *)
Definition aggregate_sum (table : list T) (q : t) (column : T -> Z) : option Z :=
  match rows table q with
  | [] => None
  | rs => Some (fold_right Z.add 0 (map column rs))
  end.

(** [update(column=value)]: the assignment is applied to every row the
    query selects, in place; the other rows stay as they are. *)
Definition update (table : list T) (q : t) (assign : T -> T) : list T :=
  map (fun r => if q r then assign r else r) table.
End Ops.
End QuerySet.

(** The reverse side of each foreign key. *)
Definition application_set (d : Department.t) : @QuerySet.t Application.t :=
  fun a => Application.department a =? Department.id d.

Definition payment_set (a : Application.t) : @QuerySet.t Payment.t :=
  fun p => Payment.application p =? Application.id a.

Definition applicationfile_set (a : Application.t) : @QuerySet.t ApplicationFile.t :=
  fun f => ApplicationFile.application f =? Application.id a.

(** The forward side: [payment.application] fetches the row the key
    names, and raises when there is none. *)
Definition get_application (db : Store) (pk : Z) : result Application.t :=
  match find (fun a => Application.id a =? pk) (applications db) with
  | Some a => Ok a
  | None => Raise (DoesNotExist "Application")
  end.

(** ** URL names

    [reverse] looks a view name up in the project's URL configuration.
    The names in the [admin] namespace are those the admin site gives to
    the models registered with it: for a model [m] of the application
    labelled [l], [l_m_changelist], [l_m_add], [l_m_history], [l_m_delete]
    and [l_m_change], the last three taking the primary key. *)

Module Urls.

Record pattern : Type := mkPattern {
  pat_name : string;
  pat_arity : nat;
  pat_path : list Z -> string
}.

Definition urlconf : Type := list pattern.

Definition object_path (base suffix : string) (args : list Z) : string :=
  match args with
  | pk :: _ => base ++ str_int pk ++ "/" ++ suffix
  | [] => base
  end.

Definition model_urls (prefix label model : string) : urlconf :=
  let base := prefix ++ label ++ "/" ++ model ++ "/" in
  let nm := label ++ "_" ++ model ++ "_" in
  [ mkPattern (nm ++ "changelist") 0 (fun _ => base);
    mkPattern (nm ++ "add") 0 (fun _ => base ++ "add/");
    mkPattern (nm ++ "history") 1 (object_path base "history/");
    mkPattern (nm ++ "delete") 1 (object_path base "delete/");
    mkPattern (nm ++ "change") 1 (object_path base "change/") ].

Definition admin_urls (prefix label : string) (models : list string) : urlconf :=
  flat_map (model_urls prefix label) models.

Definition matches (viewname : string) (args : list Z) (p : pattern) : bool :=
  String.eqb ("admin:" ++ pat_name p) viewname
  && Nat.eqb (pat_arity p) (List.length args).

Definition reverse (conf : urlconf) (viewname : string) (args : list Z) : result string :=
  match find (matches viewname args) conf with
  | Some p => Ok (pat_path p args)
  | None => Raise (NoReverseMatch viewname)
  end.

End Urls.

(** The models this module registers with the admin site, by the
    [@admin.register] decorators: [Department], [Teacher], [Application]
    and [Payment].  [ApplicationFile] is edited inline only and
    [ApplicationDashboard] is not registered, so neither has URLs. *)
Definition registered_models : list string :=
  ["department"; "teacher"; "application"; "payment"].

(** The label of the application: the package that holds [admin.py] and
    the [models] it imports with [from .models import ...] is
    [admission], and Django labels an application by the last component
    of its package name. *)
Definition app_label : string := "admission".

(** The admin site is mounted at [/admin/]. *)
Definition admin_prefix : string := "/admin/".

Definition project_urlconf : Urls.urlconf :=
  Urls.admin_urls admin_prefix app_label registered_models.

(** ** What the framework does with the declarations

    A field named in [readonly_fields] is shown, never bound to a form
    input: the form of an editor is built from the names in [fields] that
    are not read-only, and saving a submitted form writes those fields
    and no others. *)

Module Forms.

Definition mem (x : string) (l : list string) : bool := existsb (String.eqb x) l.

Definition form_fields (fields readonly_fields : list string) : list string :=
  List.filter (fun f => negb (mem f readonly_fields)) fields.

Fixpoint lookup {V : Type} (k : string) (posted : list (string * V)) : option V :=
  match posted with
  | [] => None
  | (k', v) :: rest => if String.eqb k k' then Some v else lookup k rest
  end.

(** Saving: each form field that the submission carries a value for is
    assigned; names that are not form fields are ignored, whatever the
    submission says about them. *)
Definition save {V R : Type} (assign : string -> V -> R -> R)
    (form : list string) (posted : list (string * V)) (r : R) : R :=
  fold_left
    (fun acc f => match lookup f posted with
                  | Some v => assign f v acc
                  | None => acc
                  end)
    form r.

(** What one column of an editor row holds. *)
Inductive cell : Type :=
| Widget (field : string)
| Stored (field : string)
| Computed (html : result string).

End Forms.

(** ** [DepartmentAdmin] *)

Module DepartmentAdmin.

Definition list_display : list string :=
  ["code"; "name"; "seats"; "total_credits"; "per_credit_fee"; "application_count"].

Definition anchor : string := "<a href=" ++ dq ++ "{}" ++ dq ++ ">{}</a>".

Definition application_count (conf : Urls.urlconf) (db : Store)
    (obj : Department.t) : result string :=
  let count := QuerySet.count (applications db) (application_set obj) in
  base <- Urls.reverse conf "admin:appname_application_changelist" [] ;;
  let url := base ++ "?department__id__exact=" ++ str_int (Department.id obj) in
  format_html anchor [Str url; Int count].

End DepartmentAdmin.

(** ** [ApplicationFileInline] *)

Module ApplicationFileInline.

Definition readonly_fields : list string := ["uploaded_at"; "file_preview"].
Definition extra : Z := 0.
Definition fields : list string := ["file"; "file_preview"; "uploaded_at"].

Definition preview_anchor : string :=
  "<a href=" ++ dq ++ "{}" ++ dq ++ " target=" ++ dq ++ "_blank" ++ dq
  ++ ">View File</a>".

Definition file_preview (obj : ApplicationFile.t) : result string :=
  if FieldFile.truthy (ApplicationFile.file obj) then
    format_html preview_anchor [Str (FieldFile.url (ApplicationFile.file obj))]
  else Ok "-".

(** The values a submission can carry for a column of [ApplicationFile]. *)
Inductive value : Type :=
| FileValue (f : FieldFile.t)
| TimeValue (ts : Z).

Definition assign (field : string) (v : value) (x : ApplicationFile.t)
    : ApplicationFile.t :=
  match v with
  | FileValue f =>
      if String.eqb field "file" then ApplicationFile.set_file f x else x
  | TimeValue ts =>
      if String.eqb field "uploaded_at" then ApplicationFile.set_uploaded_at ts x
      else x
  end.

Definition form : list string := Forms.form_fields fields readonly_fields.

(** Saving one row of the nested editor. *)
Definition save (posted : list (string * value)) (x : ApplicationFile.t)
    : ApplicationFile.t :=
  Forms.save assign form posted x.

(** Showing one row: a form field is an input; a read-only name is the
    method of that name when the inline has one, the stored column
    otherwise. *)
Definition methods : list (string * (ApplicationFile.t -> result string)) :=
  [("file_preview", file_preview)].

Definition render_cell (x : ApplicationFile.t) (f : string) : string * Forms.cell :=
  if Forms.mem f form then (f, Forms.Widget f)
  else match Forms.lookup f methods with
       | Some m => (f, Forms.Computed (m x))
       | None => (f, Forms.Stored f)
       end.

Definition render_row (x : ApplicationFile.t) : list (string * Forms.cell) :=
  map (render_cell x) fields.

End ApplicationFileInline.

(** ** [ApplicationAdmin] *)

Module ApplicationAdmin.

Definition list_display : list string :=
  ["id"; "full_name"; "department"; "program"; "status";
   "applied_at"; "has_payment"; "file_count"].
Definition readonly_fields : list string := ["applied_at"; "updated_at"].
Definition list_editable : list string := ["status"].

Definition positive_template : string :=
  "<span style=" ++ dq ++ "color: green;" ++ dq ++ ">✓ (${})</span>".
Definition negative_template : string :=
  "<span style=" ++ dq ++ "color: red;" ++ dq ++ ">✗</span>".

(** Python's [x or 0] on the result of the aggregate: [None] and a zero
    sum both give [0]. *)
Definition or_zero (x : option Z) : Z :=
  match x with
  | Some t => if t =? 0 then 0 else t
  | None => 0
  end.

Definition completed (p : Payment.t) : bool :=
  String.eqb (Payment.status p) "completed".

Definition has_payment (db : Store) (obj : Application.t) : result string :=
  let table := payments db in
  let payments := QuerySet.filter (payment_set obj) completed in
  if QuerySet.exists_ table payments then
    let total_paid := or_zero (QuerySet.aggregate_sum table payments Payment.amount) in
    format_html positive_template [Int total_paid]
  else format_html negative_template [].

Definition file_count (db : Store) (obj : Application.t) : Z :=
  QuerySet.count (application_files db) (applicationfile_set obj).

(** [queryset.update(status=...)] on the applications table. *)
Definition update_status (queryset : @QuerySet.t Application.t) (s : string)
    (db : Store) : Store :=
  mkStore (departments db)
          (QuerySet.update (applications db) queryset (Application.set_status s))
          (application_files db)
          (payments db).

Definition mark_as_pending (queryset : @QuerySet.t Application.t) (db : Store) : Store :=
  update_status queryset "pending" db.

Definition mark_as_under_review (queryset : @QuerySet.t Application.t) (db : Store) : Store :=
  update_status queryset "under_review" db.

Definition mark_as_approved (queryset : @QuerySet.t Application.t) (db : Store) : Store :=
  update_status queryset "approved" db.

Definition mark_as_rejected (queryset : @QuerySet.t Application.t) (db : Store) : Store :=
  update_status queryset "rejected" db.

Definition actions : list (string * (@QuerySet.t Application.t -> Store -> Store)) :=
  [("mark_as_pending", mark_as_pending);
   ("mark_as_under_review", mark_as_under_review);
   ("mark_as_approved", mark_as_approved);
   ("mark_as_rejected", mark_as_rejected)].

(** The query set the admin hands to an action: the rows whose primary
    key is among those ticked in the list. *)
Definition selected (pks : list Z) : @QuerySet.t Application.t :=
  fun a => existsb (Z.eqb (Application.id a)) pks.

(** What the list view does with [list_editable]: each row carries a
    form with those fields; the submitted status must be one of the
    column's choices, and saving the row writes it. *)
Definition assign (field : string) (v : string) (a : Application.t) : Application.t :=
  if String.eqb field "status" then Application.set_status v a else a.

Definition list_edit (pk : Z) (posted : list (string * string)) (db : Store) : Store :=
  match Forms.lookup "status" posted with
  | Some v =>
      if Forms.mem v status_choices then
        mkStore (departments db)
                (map (fun a => if Application.id a =? pk
                               then Forms.save assign list_editable posted a
                               else a)
                     (applications db))
                (application_files db)
                (payments db)
      else db
  | None => db
  end.

End ApplicationAdmin.

(** ** [PaymentAdmin] *)

Module PaymentAdmin.

Definition readonly_fields : list string := ["paid_at"; "created_at"].
Definition list_editable : list string := ["status"].

Definition anchor : string := "<a href=" ++ dq ++ "{}" ++ dq ++ ">{}</a>".

Definition application_link (conf : Urls.urlconf) (db : Store)
    (obj : Payment.t) : result string :=
  application <- get_application db (Payment.application obj) ;;
  link <- Urls.reverse conf "admin:appname_application_change"
            [Application.id application] ;;
  format_html anchor [Str link; Str (Application.full_name application)].

End PaymentAdmin.

(** ** What the spec's words mean on the store and on the rendered text *)

Module Spec.

(** The payments related to an application that have status
    [completed], and the sum of their amounts. *)
Definition completed_payments (db : Store) (obj : Application.t) : list Payment.t :=
  List.filter
    (fun p => (Payment.application p =? Application.id obj)
              && String.eqb (Payment.status p) "completed")
    (payments db).

Definition has_completed_payment (db : Store) (obj : Application.t) : Prop :=
  exists p, In p (payments db)
            /\ Payment.application p = Application.id obj
            /\ Payment.status p = "completed".

Fixpoint total (ps : list Payment.t) : Z :=
  match ps with
  | [] => 0
  | p :: rest => Payment.amount p + total rest
  end.

(** The two indicators, and what it takes for a cell to display an
    amount: the decimal digits of the amount occur in its text. *)
Definition positive_indicator (html : string) : Prop := contains "✓" html = true.
Definition negative_indicator (html : string) : Prop := contains "✗" html = true.
Definition displays_amount (z : Z) (html : string) : Prop :=
  contains (str_int z) html = true.

(** The cell of a positive answer with a given amount, and the cell of a
    negative answer. *)
Definition positive_cell (amount : Z) : string :=
  "<span style=" ++ dq ++ "color: green;" ++ dq ++ ">✓ ($" ++ str_int amount
  ++ ")</span>".
Definition negative_cell : string :=
  "<span style=" ++ dq ++ "color: red;" ++ dq ++ ">✗</span>".

(** The [has_payment] column as the spec words it: positive exactly when
    a completed payment exists, and the sum of the completed payments on
    display, [0] included. *)
Definition has_payment_as_worded (db : Store) (obj : Application.t) : Prop :=
  exists html,
    ApplicationAdmin.has_payment db obj = Ok html
    /\ (positive_indicator html <-> has_completed_payment db obj)
    /\ displays_amount (total (completed_payments db obj)) html.

(** The applications that reference a department; the files that belong
    to an application. *)
Fixpoint applications_of (d : Department.t) (apps : list Application.t) : nat :=
  match apps with
  | [] => O
  | a :: rest =>
      if Z.eq_dec (Application.department a) (Department.id d)
      then S (applications_of d rest) else applications_of d rest
  end.

Fixpoint files_of (a : Application.t) (fs : list ApplicationFile.t) : nat :=
  match fs with
  | [] => O
  | f :: rest =>
      if Z.eq_dec (ApplicationFile.application f) (Application.id a)
      then S (files_of a rest) else files_of a rest
  end.

(** An anchor element with a given address and label. *)
Definition link (href label : string) : string :=
  "<a href=" ++ dq ++ href ++ dq ++ ">" ++ label ++ "</a>".

Definition preview_link (href : string) : string :=
  "<a href=" ++ dq ++ href ++ dq ++ " target=" ++ dq ++ "_blank" ++ dq
  ++ ">View File</a>".

(** The fixed target of each bulk action. *)
Definition action_target : list (string * string) :=
  [("mark_as_pending", "pending");
   ("mark_as_under_review", "under_review");
   ("mark_as_approved", "approved");
   ("mark_as_rejected", "rejected")].

(** Every payment belongs to an application that exists. *)
Definition well_formed (db : Store) : Prop :=
  forall p, In p (payments db) ->
    exists a, In a (applications db) /\ Application.id a = Payment.application p.

End Spec.

(** ** The spec's worked example

    Department D1 has three applications; A1 has two completed payments
    of 100 and 50 and a pending one of 75. *)

Module Sample.

Definition d1 : Department.t := Department.mk 1 "CSE" "Computer Science" 60 160 5000.

Definition app (pk : Z) (who : string) (st : string) : Application.t :=
  Application.mk pk who "a@uap.example" "01700" "Dhaka" 1 "BSc" "HSC" 380 st 10 10
                 EmptyString.

Definition a1 : Application.t := app 1 "Ayesha O'Neil" "pending".
Definition a2 : Application.t := app 2 "Rahim & Sons" "approved".
Definition a3 : Application.t := app 3 "Karim" "rejected".

Definition pay (pk application amount : Z) (st : string) : Payment.t :=
  Payment.mk pk application amount "USD" st "card" "tx" None 20.

Definition transcript : ApplicationFile.t :=
  ApplicationFile.mk 1 1 (FieldFile.mk "files/t.pdf" "/media/files/t.pdf") 30.

Definition blank : ApplicationFile.t :=
  ApplicationFile.mk 2 2 (FieldFile.mk EmptyString EmptyString) 31.

Definition store : Store :=
  mkStore [d1] [a1; a2; a3] [transcript; blank]
          [pay 1 1 100 "completed"; pay 2 1 50 "completed"; pay 3 1 75 "pending";
           pay 4 3 20 "pending"].

End Sample.

(** ** The transitions of [Application.status]

    The operations through which this layer writes the status column: a
    bulk action run on the rows ticked in the list, and a row of the list
    saved with an edited status. *)

Inductive op : Type :=
| Bulk (name : string) (pks : list Z)
| ListEdit (pk : Z) (posted : list (string * string)).

Inductive step : Store -> op -> Store -> Prop :=
| step_bulk : forall name act pks db,
    In (name, act) ApplicationAdmin.actions ->
    step db (Bulk name pks) (act (ApplicationAdmin.selected pks) db)
| step_list_edit : forall pk posted db,
    step db (ListEdit pk posted) (ApplicationAdmin.list_edit pk posted db).

(** A run of the layer: operations applied one after the other. *)
Inductive run : Store -> list op -> Store -> Prop :=
| run_nil : forall db, run db [] db
| run_cons : forall db o db' ops db'',
    step db o db' -> run db' ops db'' -> run db (o :: ops) db''.

(** Every row of the applications table holds one of the four statuses. *)
Definition statuses_valid (db : Store) : Prop :=
  forall a, In a (applications db) -> In (Application.status a) status_choices.

(** The primary keys of the applications table, in table order. *)
Definition application_ids (db : Store) : list Z :=
  map Application.id (applications db).

(** The sum of a column of numbers computed row by row. *)
Definition sum_over {A : Type} (f : A -> Z) (l : list A) : Z :=
  fold_right (fun x acc => f x + acc) 0 l.

(** ** Markup characters

    The characters that open or close a tag or an attribute value; text
    that holds none of them cannot end the attribute or the element it is
    written into. *)
Definition is_markup (c : ascii) : bool :=
  Ascii.eqb c "<" || Ascii.eqb c ">" || Ascii.eqb c dquote_char
  || Ascii.eqb c squote_char.

Fixpoint has_markup (s : string) : bool :=
  match s with
  | EmptyString => false
  | String c rest => is_markup c || has_markup rest
  end.

(** ** The status column of the payments list

    [PaymentAdmin] declares [list_editable = ('status',)] as
    [ApplicationAdmin] does.  The choices of [Payment.status] are declared
    in [models.py], which is not at hand: they are a parameter here. *)
Definition payment_set_status (s : string) (p : Payment.t) : Payment.t :=
  Payment.mk (Payment.id p) (Payment.application p) (Payment.amount p)
             (Payment.currency p) s (Payment.payment_method p)
             (Payment.transaction_id p) (Payment.paid_at p) (Payment.created_at p).

Definition payment_assign (field : string) (v : string) (p : Payment.t) : Payment.t :=
  if String.eqb field "status" then payment_set_status v p else p.

Definition payment_list_edit (choices : list string) (pk : Z)
    (posted : list (string * string)) (db : Store) : Store :=
  match Forms.lookup "status" posted with
  | Some v =>
      if Forms.mem v choices then
        mkStore (departments db)
                (applications db)
                (application_files db)
                (map (fun p => if Payment.id p =? pk
                               then Forms.save payment_assign PaymentAdmin.list_editable
                                               posted p
                               else p)
                     (payments db))
      else db
  | None => db
  end.

(** * Properties *)

(** ** Checks on the worked example *)

Example format_html_anchor :
  format_html ("<a href=" ++ dq ++ "{}" ++ dq ++ ">{}</a>") [Str "/x/?a=1&b=2"; Int 3]
  = Ok ("<a href=" ++ dq ++ "/x/?a=1&amp;b=2" ++ dq ++ ">3</a>").
Proof. reflexivity. Qed.

Example format_unicode :
  format_html "<span>✓ (${})</span>" [Int (-15)] = Ok "<span>✓ ($-15)</span>".
Proof. reflexivity. Qed.

Example reverse_change :
  Urls.reverse project_urlconf "admin:admission_application_change" [7]
  = Ok "/admin/admission/application/7/change/".
Proof. reflexivity. Qed.

Example reverse_changelist :
  Urls.reverse project_urlconf "admin:admission_application_changelist" []
  = Ok "/admin/admission/application/".
Proof. reflexivity. Qed.

Example has_payment_a1 :
  ApplicationAdmin.has_payment Sample.store Sample.a1
  = Ok ("<span style=" ++ dq ++ "color: green;" ++ dq ++ ">✓ ($150)</span>").
Proof. reflexivity. Qed.

Example has_payment_a3 :
  ApplicationAdmin.has_payment Sample.store Sample.a3
  = Ok ("<span style=" ++ dq ++ "color: red;" ++ dq ++ ">✗</span>").
Proof. reflexivity. Qed.

Example file_count_a1 : ApplicationAdmin.file_count Sample.store Sample.a1 = 1.
Proof. reflexivity. Qed.

Example application_count_d1 :
  DepartmentAdmin.application_count project_urlconf Sample.store Sample.d1
  = Raise (NoReverseMatch "admin:appname_application_changelist").
Proof. reflexivity. Qed.

Example application_count_d1_appname :
  DepartmentAdmin.application_count
    (Urls.admin_urls admin_prefix "appname" registered_models)
    Sample.store Sample.d1
  = Ok (Spec.link "/admin/appname/application/?department__id__exact=1" "3").
Proof. reflexivity. Qed.

(** ** Text lemmas *)

Section TextFacts.

Lemma escape_plain (s : string) : plain s = true -> escape s = s.
Proof.
  induction s as [|c rest IH]; simpl; [reflexivity|].
  intros H. apply andb_prop in H as [Hc Hrest].
  apply String.eqb_eq in Hc. rewrite Hc, (IH Hrest). reflexivity.
Qed.

Lemma plain_uint (d : Decimal.uint) : plain (NilEmpty.string_of_uint d) = true.
Proof. induction d; simpl; auto. Qed.

Lemma plain_str_int (z : Z) : plain (str_int z) = true.
Proof.
  unfold str_int, NilZero.string_of_int, NilZero.string_of_uint.
  destruct (Z.to_int z) as [d|d]; destruct d; simpl; auto using plain_uint.
Qed.

Lemma escape_str_int (z : Z) : escape (str_int z) = str_int z.
Proof. apply escape_plain, plain_str_int. Qed.

(** A string that occurs in a text without digits has no digit. *)
Lemma starts_with_digit (p s : string) :
  starts_with p s = true -> has_digit p = true -> has_digit s = true.
Proof.
  revert s. induction p as [|a p IH]; intros s Hs Hp; simpl in Hp; [discriminate|].
  destruct s as [|b s]; simpl in Hs; [discriminate|].
  apply andb_prop in Hs as [Hab Hrest]. apply Ascii.eqb_eq in Hab. subst b.
  simpl. destruct (is_digit a); simpl in *; [reflexivity|]. eauto.
Qed.

Lemma contains_digit (p s : string) :
  contains p s = true -> has_digit p = true -> has_digit s = true.
Proof.
  induction s as [|b s IH]; simpl; intros Hc Hp.
  - rewrite orb_false_r in Hc. destruct p; simpl in *; discriminate.
  - apply orb_prop in Hc as [Hc|Hc].
    + apply (starts_with_digit p (String b s)); assumption.
    + rewrite (IH Hc Hp). apply orb_true_r.
Qed.

Lemma has_digit_str_int (z : Z) : has_digit (str_int z) = true.
Proof.
  unfold str_int, NilZero.string_of_int, NilZero.string_of_uint.
  destruct (Z.to_int z) as [d|d]; destruct d; reflexivity.
Qed.

Lemma no_amount_without_digit (s : string) (z : Z) :
  has_digit s = false -> contains (str_int z) s = false.
Proof.
  intros Hs. destruct (contains (str_int z) s) eqn:Hc; [|reflexivity].
  rewrite (contains_digit _ _ Hc (has_digit_str_int z)) in Hs. discriminate.
Qed.

(** Escaped text reads back as the text that was escaped. *)
Lemma unescape_escape (s : string) : unescape (escape s) = s.
Proof.
  induction s as [|c rest IH]; [reflexivity|].
  cbn [escape]. unfold escape_char.
  destruct (Ascii.eqb_spec c "&") as [->|Hamp]; [cbn; now rewrite IH|].
  destruct (Ascii.eqb_spec c "<") as [->|Hlt]; [cbn; now rewrite IH|].
  destruct (Ascii.eqb_spec c ">") as [->|Hgt]; [cbn; now rewrite IH|].
  destruct (Ascii.eqb_spec c dquote_char) as [->|Hdq]; [cbn; now rewrite IH|].
  destruct (Ascii.eqb_spec c squote_char) as [->|Hsq]; [cbn; now rewrite IH|].
  cbn [append unescape].
  destruct (Ascii.eqb_spec c "&") as [->|_]; [contradiction|]. now rewrite IH.
Qed.

(** A text displays what occurs in it. *)
Lemma starts_with_app (p s : string) : starts_with p (p ++ s) = true.
Proof.
  induction p as [|a p IH]; [reflexivity|].
  cbn. rewrite Ascii.eqb_refl. exact IH.
Qed.

Lemma contains_prefix (p s : string) : starts_with p s = true -> contains p s = true.
Proof. intros H. destruct s; cbn; rewrite H; reflexivity. Qed.

Lemma contains_app (p before after : string) :
  contains p (before ++ p ++ after) = true.
Proof.
  induction before as [|c before IH]; cbn [append].
  - apply contains_prefix, starts_with_app.
  - cbn [contains]. rewrite IH. apply orb_true_r.
Qed.

(** The templates of this module, formatted. *)
Lemma format_anchor (href : string) (label : pyval) :
  format_html DepartmentAdmin.anchor [Str href; label]
  = Ok (Spec.link (escape href) (escape (str label))).
Proof. reflexivity. Qed.

Lemma format_preview (href : string) :
  format_html ApplicationFileInline.preview_anchor [Str href]
  = Ok (Spec.preview_link (escape href)).
Proof. reflexivity. Qed.

Lemma format_positive (z : Z) :
  format_html ApplicationAdmin.positive_template [Int z]
  = Ok (Spec.positive_cell z).
Proof.
  unfold format_html. simpl map. unfold conditional_escape. cbn [str].
  rewrite escape_str_int. reflexivity.
Qed.

Lemma format_negative :
  format_html ApplicationAdmin.negative_template [] = Ok Spec.negative_cell.
Proof. reflexivity. Qed.

End TextFacts.

(** ** Query set lemmas *)

Section QuerySetFacts.

Context {T : Type}.
Implicit Types (table : list T) (q : @QuerySet.t T).

Lemma exists_spec table q :
  QuerySet.exists_ table q = true <-> exists r, In r table /\ q r = true.
Proof.
  unfold QuerySet.exists_, QuerySet.rows. split.
  - destruct (List.filter q table) as [|r rs] eqn:E; [discriminate|]. intros _.
    exists r. apply filter_In. rewrite E. left. reflexivity.
  - intros (r & Hin & Hq).
    destruct (List.filter q table) as [|r' rs] eqn:E; [|reflexivity].
    assert (In r (List.filter q table)) as H by (apply filter_In; auto).
    rewrite E in H. destruct H.
Qed.

Lemma exists_rows table q :
  QuerySet.exists_ table q = true -> QuerySet.rows table q <> [].
Proof. unfold QuerySet.exists_. destruct (QuerySet.rows table q); congruence. Qed.

Lemma aggregate_rows table q (column : T -> Z) :
  QuerySet.rows table q <> [] ->
  QuerySet.aggregate_sum table q column
  = Some (fold_right Z.add 0 (map column (QuerySet.rows table q))).
Proof.
  unfold QuerySet.aggregate_sum. destruct (QuerySet.rows table q); congruence.
Qed.

Lemma update_length table q (assign : T -> T) :
  List.length (QuerySet.update table q assign) = List.length table.
Proof. apply length_map. Qed.

Lemma update_nth table q (assign : T -> T) (i : nat) :
  nth_error (QuerySet.update table q assign) i
  = option_map (fun r => if q r then assign r else r) (nth_error table i).
Proof. apply nth_error_map. Qed.

End QuerySetFacts.

(** ** The [has_payment] column *)

Section HasPayment.

Variable db : Store.
Variable obj : Application.t.

Lemma completed_rows :
  QuerySet.rows (payments db)
                (QuerySet.filter (payment_set obj) ApplicationAdmin.completed)
  = Spec.completed_payments db obj.
Proof. reflexivity. Qed.

Lemma selects_completed (p : Payment.t) :
  QuerySet.filter (payment_set obj) ApplicationAdmin.completed p = true
  <-> Payment.application p = Application.id obj /\ Payment.status p = "completed".
Proof.
  unfold QuerySet.filter, payment_set, ApplicationAdmin.completed.
  rewrite andb_true_iff, Z.eqb_eq, String.eqb_eq. reflexivity.
Qed.

Lemma exists_completed :
  QuerySet.exists_ (payments db)
                   (QuerySet.filter (payment_set obj) ApplicationAdmin.completed)
  = true
  <-> Spec.has_completed_payment db obj.
Proof.
  rewrite exists_spec. unfold Spec.has_completed_payment.
  split; intros (p & Hin & H); exists p; split; auto; apply selects_completed; auto.
Qed.

Lemma sum_total (ps : list Payment.t) :
  fold_right Z.add 0 (map Payment.amount ps) = Spec.total ps.
Proof. induction ps as [|p ps IH]; simpl; [reflexivity|]. rewrite IH. reflexivity. Qed.

Lemma or_zero_some (z : Z) : ApplicationAdmin.or_zero (Some z) = z.
Proof.
  unfold ApplicationAdmin.or_zero. destruct (Z.eqb_spec z 0); congruence.
Qed.

Lemma has_payment_positive :
  Spec.has_completed_payment db obj ->
  ApplicationAdmin.has_payment db obj
  = Ok (Spec.positive_cell (Spec.total (Spec.completed_payments db obj))).
Proof.
  intros H. apply exists_completed in H. unfold ApplicationAdmin.has_payment.
  cbv zeta. rewrite H.
  rewrite (aggregate_rows _ _ _ (exists_rows _ _ H)), or_zero_some.
  rewrite completed_rows, sum_total. apply format_positive.
Qed.

Lemma has_payment_negative :
  ~ Spec.has_completed_payment db obj ->
  ApplicationAdmin.has_payment db obj = Ok Spec.negative_cell.
Proof.
  intros H. unfold ApplicationAdmin.has_payment. cbv zeta.
  destruct (QuerySet.exists_ (payments db)
              (QuerySet.filter (payment_set obj) ApplicationAdmin.completed)) eqn:E.
  - apply exists_completed in E. contradiction.
  - apply format_negative.
Qed.

Lemma completed_decidable :
  Spec.has_completed_payment db obj \/ ~ Spec.has_completed_payment db obj.
Proof.
  destruct (QuerySet.exists_ (payments db)
              (QuerySet.filter (payment_set obj) ApplicationAdmin.completed)) eqn:E.
  - left. apply exists_completed. exact E.
  - right. intros H. apply exists_completed in H. congruence.
Qed.

End HasPayment.

Lemma positive_cell_positive (z : Z) : Spec.positive_indicator (Spec.positive_cell z).
Proof. reflexivity. Qed.

Lemma positive_cell_displays (z : Z) : Spec.displays_amount z (Spec.positive_cell z).
Proof.
  exact (contains_app (str_int z)
           ("<span style=" ++ dq ++ "color: green;" ++ dq ++ ">✓ ($") ")</span>").
Qed.

Lemma negative_cell_not_positive : ~ Spec.positive_indicator Spec.negative_cell.
Proof. unfold Spec.positive_indicator. vm_compute. discriminate. Qed.

Lemma negative_cell_no_amount (z : Z) : ~ Spec.displays_amount z Spec.negative_cell.
Proof.
  unfold Spec.displays_amount.
  rewrite (no_amount_without_digit Spec.negative_cell z); [discriminate|reflexivity].
Qed.

(** C1, as the code has it: the column always renders; it shows the
    positive indicator exactly when the application has a completed
    payment; when it has one, the cell is the positive cell and the
    amount on display is the sum of the amounts of the completed
    payments; when it has none, the cell is the negative cell, which
    displays no amount. *)
Theorem has_payment_by_cases (db : Store) (obj : Application.t) :
  exists html,
    ApplicationAdmin.has_payment db obj = Ok html
    /\ (Spec.positive_indicator html <-> Spec.has_completed_payment db obj)
    /\ (Spec.has_completed_payment db obj ->
        html = Spec.positive_cell (Spec.total (Spec.completed_payments db obj))
        /\ Spec.displays_amount (Spec.total (Spec.completed_payments db obj)) html)
    /\ (~ Spec.has_completed_payment db obj ->
        html = Spec.negative_cell /\ forall z, ~ Spec.displays_amount z html).
Proof.
  destruct (completed_decidable db obj) as [Hyes|Hno].
  - eexists. split; [apply has_payment_positive; exact Hyes|].
    split; [|split].
    + split; intros _; [exact Hyes|apply positive_cell_positive].
    + intros _. split; [reflexivity|apply positive_cell_displays].
    + intros Hno. contradiction.
  - eexists. split; [apply has_payment_negative; exact Hno|].
    split; [|split].
    + split; intros H; [destruct (negative_cell_not_positive H)|contradiction].
    + intros Hyes. contradiction.
    + intros _. split; [reflexivity|exact negative_cell_no_amount].
Qed.

(** C1 as worded fails on an application without payments: the cell is
    the negative one and no [0] is on display. *)
Lemma has_payment_displays_no_zero :
  ~ Spec.has_payment_as_worded Sample.store Sample.a2.
Proof.
  intros (html & Hrun & _ & Hshow).
  vm_compute in Hrun. injection Hrun as <-.
  vm_compute in Hshow. discriminate.
Qed.

(** C9: an application with no related payment of status [completed]
    gets the negative cell and nothing else: no positive indicator, and
    no amount, [0] included. *)
Theorem has_payment_none_completed (db : Store) (obj : Application.t) :
  (forall p, In p (payments db) ->
             Payment.application p = Application.id obj ->
             Payment.status p <> "completed") ->
  ApplicationAdmin.has_payment db obj = Ok Spec.negative_cell
  /\ Spec.negative_indicator Spec.negative_cell
  /\ ~ Spec.positive_indicator Spec.negative_cell
  /\ (forall z, ~ Spec.displays_amount z Spec.negative_cell)
  /\ ~ Spec.displays_amount 0 Spec.negative_cell.
Proof.
  intros Hnone.
  assert (~ Spec.has_completed_payment db obj) as Hno.
  { intros (p & Hin & Happ & Hst). exact (Hnone p Hin Happ Hst). }
  repeat split.
  - apply has_payment_negative. exact Hno.
  - exact negative_cell_not_positive.
  - exact negative_cell_no_amount.
  - apply negative_cell_no_amount.
Qed.

Lemma has_payment_none_completed_witness :
  ApplicationAdmin.has_payment Sample.store Sample.a3 = Ok Spec.negative_cell
  /\ Spec.negative_indicator Spec.negative_cell
  /\ ~ Spec.positive_indicator Spec.negative_cell
  /\ (forall z, ~ Spec.displays_amount z Spec.negative_cell)
  /\ ~ Spec.displays_amount 0 Spec.negative_cell.
Proof.
  apply (has_payment_none_completed Sample.store Sample.a3).
  intros p Hin Happ.
  simpl in Hin.
  repeat (destruct Hin as [<-|Hin]; [try discriminate Happ; discriminate|]).
  destruct Hin.
Defined.

(** ** The counting columns *)

Lemma count_files (a : Application.t) (fs : list ApplicationFile.t) :
  QuerySet.count fs (applicationfile_set a) = Z.of_nat (Spec.files_of a fs).
Proof.
  unfold QuerySet.count, QuerySet.rows. f_equal.
  induction fs as [|f fs IH]; simpl; [reflexivity|].
  unfold applicationfile_set at 1.
  destruct (Z.eqb_spec (ApplicationFile.application f) (Application.id a)) as [E|E];
    destruct (Z.eq_dec (ApplicationFile.application f) (Application.id a));
    try contradiction; simpl; rewrite IH; reflexivity.
Qed.

Lemma count_applications (d : Department.t) (apps : list Application.t) :
  QuerySet.count apps (application_set d) = Z.of_nat (Spec.applications_of d apps).
Proof.
  unfold QuerySet.count, QuerySet.rows. f_equal.
  induction apps as [|a apps IH]; simpl; [reflexivity|].
  unfold application_set at 1.
  destruct (Z.eqb_spec (Application.department a) (Department.id d)) as [E|E];
    destruct (Z.eq_dec (Application.department a) (Department.id d));
    try contradiction; simpl; rewrite IH; reflexivity.
Qed.

(** C5: the [file_count] column of an application is the number of
    [ApplicationFile] rows whose application is that one. *)
Theorem file_count_is_number_of_files (db : Store) (obj : Application.t) :
  ApplicationAdmin.file_count db obj
  = Z.of_nat (Spec.files_of obj (application_files db)).
Proof. apply count_files. Qed.

(** ** The bulk actions *)

Lemma selected_spec (pks : list Z) (a : Application.t) :
  ApplicationAdmin.selected pks a = true <-> In (Application.id a) pks.
Proof.
  unfold ApplicationAdmin.selected. rewrite existsb_exists. split.
  - intros (k & Hin & Hk). apply Z.eqb_eq in Hk. congruence.
  - intros Hin. exists (Application.id a). split; [exact Hin|apply Z.eqb_refl].
Qed.

Lemma action_is_update (name target : string)
    (act : @QuerySet.t Application.t -> Store -> Store) :
  In (name, act) ApplicationAdmin.actions ->
  In (name, target) Spec.action_target ->
  forall queryset db, act queryset db = ApplicationAdmin.update_status queryset target db.
Proof.
  intros Hact Htarget.
  destruct Hact as [H|[H|[H|[H|[]]]]]; inversion H; subst; clear H;
    destruct Htarget as [H|[H|[H|[H|[]]]]]; inversion H; subst; reflexivity.
Qed.

Lemma action_has_target (name : string)
    (act : @QuerySet.t Application.t -> Store -> Store) :
  In (name, act) ApplicationAdmin.actions ->
  exists target, In (name, target) Spec.action_target /\ In target status_choices.
Proof.
  intros Hact.
  destruct Hact as [H|[H|[H|[H|[]]]]]; inversion H; subst; clear H;
    eexists; (split; [simpl; eauto 6|simpl; eauto 6]).
Qed.

Lemma update_status_row (queryset : @QuerySet.t Application.t) (s : string)
    (db : Store) (i : nat) (a : Application.t) :
  nth_error (applications db) i = Some a ->
  nth_error (applications (ApplicationAdmin.update_status queryset s db)) i
  = Some (if queryset a then Application.set_status s a else a).
Proof.
  intros H. unfold ApplicationAdmin.update_status. cbn [applications].
  rewrite update_nth, H. reflexivity.
Qed.

(** C2: a bulk action keeps the rows of the applications table in place,
    writes its fixed target into the status of every row the query set
    selects, whatever the status was, and leaves every other row as it
    is. *)
Theorem bulk_action_overwrites_selected (name target : string)
    (act : @QuerySet.t Application.t -> Store -> Store) :
  In (name, act) ApplicationAdmin.actions ->
  In (name, target) Spec.action_target ->
  forall (queryset : @QuerySet.t Application.t) (db : Store),
    List.length (applications (act queryset db)) = List.length (applications db)
    /\ forall i a, nth_error (applications db) i = Some a ->
         exists a', nth_error (applications (act queryset db)) i = Some a'
           /\ Application.id a' = Application.id a
           /\ (queryset a = true -> Application.status a' = target)
           /\ (queryset a = false -> a' = a).
Proof.
  intros Hact Htarget queryset db.
  rewrite (action_is_update name target act Hact Htarget). split.
  - apply update_length.
  - intros i a Hrow. eexists. split; [apply update_status_row; exact Hrow|].
    destruct (queryset a); repeat split; intros; try reflexivity; discriminate.
Qed.

Lemma bulk_action_overwrites_selected_witness :
  let db := ApplicationAdmin.mark_as_approved (ApplicationAdmin.selected [1; 3]) Sample.store in
  List.length (applications db) = List.length (applications Sample.store)
  /\ forall i a, nth_error (applications Sample.store) i = Some a ->
       exists a', nth_error (applications db) i = Some a'
         /\ Application.id a' = Application.id a
         /\ (ApplicationAdmin.selected [1; 3] a = true -> Application.status a' = "approved")
         /\ (ApplicationAdmin.selected [1; 3] a = false -> a' = a).
Proof.
  apply (bulk_action_overwrites_selected "mark_as_approved" "approved"
           ApplicationAdmin.mark_as_approved).
  - simpl. auto.
  - simpl. auto.
Defined.

Example mark_as_approved_example :
  map Application.status
      (applications (ApplicationAdmin.mark_as_approved
                       (ApplicationAdmin.selected [1; 3]) Sample.store))
  = ["approved"; "approved"; "approved"].
Proof. reflexivity. Qed.

Example mark_as_pending_example :
  map Application.status
      (applications (ApplicationAdmin.mark_as_pending
                       (ApplicationAdmin.selected [2]) Sample.store))
  = ["pending"; "pending"; "rejected"].
Proof. reflexivity. Qed.

(** C10: a bulk action writes nothing but the status column of the
    applications table: every other column of every row is as before,
    the other tables are untouched, and so are the files and payments
    related to each application. *)
Theorem bulk_action_frame (name : string)
    (act : @QuerySet.t Application.t -> Store -> Store) :
  In (name, act) ApplicationAdmin.actions ->
  forall (queryset : @QuerySet.t Application.t) (db : Store),
    departments (act queryset db) = departments db
    /\ application_files (act queryset db) = application_files db
    /\ payments (act queryset db) = payments db
    /\ forall i a, nth_error (applications db) i = Some a ->
         exists a', nth_error (applications (act queryset db)) i = Some a'
           /\ Application.id a' = Application.id a
           /\ Application.full_name a' = Application.full_name a
           /\ Application.email a' = Application.email a
           /\ Application.phone a' = Application.phone a
           /\ Application.address a' = Application.address a
           /\ Application.department a' = Application.department a
           /\ Application.program a' = Application.program a
           /\ Application.previous_education a' = Application.previous_education a
           /\ Application.cgpa a' = Application.cgpa a
           /\ Application.notes a' = Application.notes a
           /\ Application.applied_at a' = Application.applied_at a
           /\ Application.updated_at a' = Application.updated_at a
           /\ QuerySet.rows (application_files (act queryset db)) (applicationfile_set a')
              = QuerySet.rows (application_files db) (applicationfile_set a)
           /\ QuerySet.rows (payments (act queryset db)) (payment_set a')
              = QuerySet.rows (payments db) (payment_set a).
Proof.
  intros Hact queryset db.
  destruct (action_has_target name act Hact) as (target & Htarget & _).
  rewrite (action_is_update name target act Hact Htarget).
  repeat (split; [reflexivity|]).
  intros i a Hrow. eexists. split; [apply update_status_row; exact Hrow|].
  destruct (queryset a); repeat split; reflexivity.
Qed.

Lemma bulk_action_frame_witness :
  let db := ApplicationAdmin.mark_as_rejected (ApplicationAdmin.selected [1]) Sample.store in
  departments db = departments Sample.store
  /\ application_files db = application_files Sample.store
  /\ payments db = payments Sample.store
  /\ forall i a, nth_error (applications Sample.store) i = Some a ->
       exists a', nth_error (applications db) i = Some a'
         /\ Application.id a' = Application.id a
         /\ Application.full_name a' = Application.full_name a
         /\ Application.email a' = Application.email a
         /\ Application.phone a' = Application.phone a
         /\ Application.address a' = Application.address a
         /\ Application.department a' = Application.department a
         /\ Application.program a' = Application.program a
         /\ Application.previous_education a' = Application.previous_education a
         /\ Application.cgpa a' = Application.cgpa a
         /\ Application.notes a' = Application.notes a
         /\ Application.applied_at a' = Application.applied_at a
         /\ Application.updated_at a' = Application.updated_at a
         /\ QuerySet.rows (application_files db) (applicationfile_set a')
            = QuerySet.rows (application_files Sample.store) (applicationfile_set a)
         /\ QuerySet.rows (payments db) (payment_set a')
            = QuerySet.rows (payments Sample.store) (payment_set a).
Proof.
  apply (bulk_action_frame "mark_as_rejected" ApplicationAdmin.mark_as_rejected).
  simpl. auto.
Defined.

(** ** Status transitions *)

Lemma selected_self (a : Application.t) :
  ApplicationAdmin.selected [Application.id a] a = true.
Proof. apply selected_spec. left. reflexivity. Qed.

Lemma action_for_target (s : string) :
  In s status_choices ->
  exists name act,
    In (name, act) ApplicationAdmin.actions /\ In (name, s) Spec.action_target.
Proof.
  intros H. destruct H as [<-|[<-|[<-|[<-|[]]]]].
  - exists "mark_as_pending", ApplicationAdmin.mark_as_pending. simpl. auto.
  - exists "mark_as_under_review", ApplicationAdmin.mark_as_under_review. simpl. auto.
  - exists "mark_as_approved", ApplicationAdmin.mark_as_approved. simpl. auto 6.
  - exists "mark_as_rejected", ApplicationAdmin.mark_as_rejected. simpl. auto 6.
Qed.

Lemma mem_choice (s : string) : In s status_choices -> Forms.mem s status_choices = true.
Proof. intros H. destruct H as [<-|[<-|[<-|[<-|[]]]]]; reflexivity. Qed.

Lemma list_edit_row (s : string) (db : Store) (i : nat) (a : Application.t) :
  In s status_choices ->
  nth_error (applications db) i = Some a ->
  nth_error (applications
               (ApplicationAdmin.list_edit (Application.id a) [("status", s)] db)) i
  = Some (Application.set_status s a).
Proof.
  intros Hs Hrow. unfold ApplicationAdmin.list_edit.
  change (Forms.lookup "status" [("status", s)]) with (Some s). cbv iota beta.
  rewrite (mem_choice s Hs). cbn [applications].
  rewrite nth_error_map, Hrow. cbn [option_map]. rewrite Z.eqb_refl. reflexivity.
Qed.

(** C6: from any status to any status.  Whatever the status of a row
    is, for each of the four statuses there is a bulk action that, run
    on that row, leaves it with that status, and saving the row of the
    list with that status does the same; neither looks at the status
    the row had. *)
Theorem every_transition_is_permitted (s1 s2 : string) :
  In s1 status_choices ->
  In s2 status_choices ->
  forall (db : Store) (i : nat) (a : Application.t),
    nth_error (applications db) i = Some a ->
    Application.status a = s1 ->
    (exists name db' a',
        step db (Bulk name [Application.id a]) db'
        /\ nth_error (applications db') i = Some a'
        /\ Application.status a' = s2)
    /\ (exists db' a',
           step db (ListEdit (Application.id a) [("status", s2)]) db'
           /\ nth_error (applications db') i = Some a'
           /\ Application.status a' = s2).
Proof.
  intros _ Hs2 db i a Hrow _. split.
  - destruct (action_for_target s2 Hs2) as (name & act & Hact & Htarget).
    exists name, (act (ApplicationAdmin.selected [Application.id a]) db),
           (Application.set_status s2 a).
    split; [apply (step_bulk name act); exact Hact|]. split; [|reflexivity].
    rewrite (action_is_update name s2 act Hact Htarget).
    rewrite (update_status_row _ _ _ _ _ Hrow), selected_self. reflexivity.
  - exists (ApplicationAdmin.list_edit (Application.id a) [("status", s2)] db),
           (Application.set_status s2 a).
    split; [apply step_list_edit|]. split; [|reflexivity].
    apply list_edit_row; assumption.
Qed.

Lemma every_transition_is_permitted_witness :
  (exists name db' a',
      step Sample.store (Bulk name [Application.id Sample.a2]) db'
      /\ nth_error (applications db') 1 = Some a'
      /\ Application.status a' = "pending")
  /\ (exists db' a',
         step Sample.store (ListEdit (Application.id Sample.a2) [("status", "pending")]) db'
         /\ nth_error (applications db') 1 = Some a'
         /\ Application.status a' = "pending").
Proof.
  apply (every_transition_is_permitted "approved" "pending"
           ltac:(simpl; auto) ltac:(simpl; auto)
           Sample.store 1%nat Sample.a2 eq_refl eq_refl).
Defined.

(** ** The nested file editor *)

Lemma inline_form : ApplicationFileInline.form = ["file"].
Proof. reflexivity. Qed.

Lemma inline_save_cases (posted : list (string * ApplicationFileInline.value))
    (x : ApplicationFile.t) :
  ApplicationFileInline.save posted x = x
  \/ exists f, ApplicationFileInline.save posted x = ApplicationFile.set_file f x.
Proof.
  unfold ApplicationFileInline.save, Forms.save. rewrite inline_form. cbn [fold_left].
  destruct (Forms.lookup "file" posted) as [[f|ts]|].
  - right. exists f. reflexivity.
  - left. reflexivity.
  - left. reflexivity.
Qed.

(** C7: in the nested editor of application files the upload timestamp
    is shown as a stored value and is not an input, no submission saved
    through the editor changes it, and a row with a file attached shows,
    in its preview column, a link whose address is the URL of that file,
    escaped for the page. *)
Theorem inline_timestamp_readonly_and_preview
    (posted : list (string * ApplicationFileInline.value)) (x : ApplicationFile.t) :
  ApplicationFile.uploaded_at (ApplicationFileInline.save posted x)
  = ApplicationFile.uploaded_at x
  /\ In ("uploaded_at", Forms.Stored "uploaded_at") (ApplicationFileInline.render_row x)
  /\ ~ In "uploaded_at" ApplicationFileInline.form
  /\ (FieldFile.truthy (ApplicationFile.file x) = true ->
      exists href,
        In ("file_preview", Forms.Computed (Ok (Spec.preview_link href)))
           (ApplicationFileInline.render_row x)
        /\ href = escape (FieldFile.url (ApplicationFile.file x))
        /\ unescape href = FieldFile.url (ApplicationFile.file x)).
Proof.
  split; [|split; [|split]].
  - destruct (inline_save_cases posted x) as [->|(f & ->)]; reflexivity.
  - simpl. auto.
  - rewrite inline_form. intros [H|[]]. discriminate H.
  - intros Hfile. eexists. split; [|split; [reflexivity|apply unescape_escape]].
    right. left.
    unfold ApplicationFileInline.render_cell. cbn.
    unfold ApplicationFileInline.file_preview. rewrite Hfile, format_preview.
    reflexivity.
Qed.

Example inline_save_ignores_timestamp :
  ApplicationFileInline.save
    [("uploaded_at", ApplicationFileInline.TimeValue 99);
     ("file", ApplicationFileInline.FileValue (FieldFile.mk "n.pdf" "/media/n.pdf"))]
    Sample.transcript
  = ApplicationFile.mk 1 1 (FieldFile.mk "n.pdf" "/media/n.pdf") 30.
Proof. reflexivity. Qed.

Example preview_of_transcript :
  ApplicationFileInline.render_row Sample.transcript
  = [("file", Forms.Widget "file");
     ("file_preview",
      Forms.Computed (Ok (Spec.preview_link "/media/files/t.pdf")));
     ("uploaded_at", Forms.Stored "uploaded_at")].
Proof. reflexivity. Qed.

Example preview_of_blank :
  ApplicationFileInline.file_preview Sample.blank = Ok "-".
Proof. reflexivity. Qed.

(** ** The two link columns

    Both columns ask [reverse] for a view name that starts with
    [admin:appname_].  The admin site names the views of a model after
    the label of the model's application, which here is [admission]: no
    view called [appname_...] is registered, and [reverse] raises. *)

Lemma no_appname_changelist (args : list Z) :
  Urls.reverse project_urlconf "admin:appname_application_changelist" args
  = Raise (NoReverseMatch "admin:appname_application_changelist").
Proof. reflexivity. Qed.

Lemma no_appname_change (args : list Z) :
  Urls.reverse project_urlconf "admin:appname_application_change" args
  = Raise (NoReverseMatch "admin:appname_application_change").
Proof. reflexivity. Qed.

(** Had the name resolved, the column would be the link the spec
    describes: the count as label, the department's key as filter. *)
Lemma application_count_when_resolved (conf : Urls.urlconf) (base : string)
    (db : Store) (obj : Department.t) :
  Urls.reverse conf "admin:appname_application_changelist" [] = Ok base ->
  DepartmentAdmin.application_count conf db obj
  = Ok (Spec.link
          (escape (base ++ "?department__id__exact=" ++ str_int (Department.id obj)))
          (str_int (Z.of_nat (Spec.applications_of obj (applications db))))).
Proof.
  intros H. unfold DepartmentAdmin.application_count. rewrite H. cbn [bind].
  rewrite format_anchor. cbn [str]. rewrite escape_str_int, count_applications.
  reflexivity.
Qed.

Lemma get_application_well_formed (db : Store) (p : Payment.t) :
  Spec.well_formed db -> In p (payments db) ->
  exists a, get_application db (Payment.application p) = Ok a
            /\ Application.id a = Payment.application p.
Proof.
  intros Hwf Hin. destruct (Hwf p Hin) as (a & Ha & Hid).
  unfold get_application.
  destruct (find (fun a0 => Application.id a0 =? Payment.application p)
                 (applications db)) as [a0|] eqn:E.
  - exists a0. split; [reflexivity|]. apply find_some in E as [_ E].
    apply Z.eqb_eq. exact E.
  - apply (find_none _ _ E) in Ha. apply Z.eqb_neq in Ha. contradiction.
Qed.

Lemma application_link_when_resolved (conf : Urls.urlconf) (link : string)
    (db : Store) (obj : Payment.t) (a : Application.t) :
  get_application db (Payment.application obj) = Ok a ->
  Urls.reverse conf "admin:appname_application_change" [Application.id a] = Ok link ->
  PaymentAdmin.application_link conf db obj
  = Ok (Spec.link (escape link) (escape (Application.full_name a))).
Proof.
  intros Hget Hrev. unfold PaymentAdmin.application_link.
  rewrite Hget. cbn [bind]. rewrite Hrev. cbn [bind]. apply format_anchor.
Qed.

(** C3: on the project's URL configuration [application_count] renders
    no link for any department: the view name it reverses is not one
    the admin site registers, so the call raises [NoReverseMatch]. *)
Theorem application_count_raises (db : Store) (obj : Department.t) :
  DepartmentAdmin.application_count project_urlconf db obj
  = Raise (NoReverseMatch "admin:appname_application_changelist").
Proof.
  unfold DepartmentAdmin.application_count.
  rewrite no_appname_changelist. reflexivity.
Qed.

(** C4: on the project's URL configuration [application_link] renders
    no link for any payment: it raises, and what it raises for a payment
    of a well-formed store is [NoReverseMatch]. *)
Theorem application_link_raises (db : Store) (obj : Payment.t) :
  (exists e, PaymentAdmin.application_link project_urlconf db obj = Raise e)
  /\ (Spec.well_formed db -> In obj (payments db) ->
      PaymentAdmin.application_link project_urlconf db obj
      = Raise (NoReverseMatch "admin:appname_application_change")).
Proof.
  unfold PaymentAdmin.application_link. split.
  - destruct (get_application db (Payment.application obj)) as [a|e]; cbn [bind].
    + rewrite no_appname_change. eexists. reflexivity.
    + eexists. reflexivity.
  - intros Hwf Hin.
    destruct (get_application_well_formed db obj Hwf Hin) as (a & -> & _).
    cbn [bind]. rewrite no_appname_change. reflexivity.
Qed.

Example application_link_example :
  PaymentAdmin.application_link project_urlconf Sample.store
    (Sample.pay 1 1 100 "completed")
  = Raise (NoReverseMatch "admin:appname_application_change").
Proof. reflexivity. Qed.

Example application_link_appname :
  PaymentAdmin.application_link
    (Urls.admin_urls admin_prefix "appname" registered_models)
    Sample.store (Sample.pay 1 1 100 "completed")
  = Ok (Spec.link "/admin/appname/application/1/change/" "Ayesha O&#x27;Neil").
Proof. reflexivity. Qed.

(** ** Totality *)

Lemma has_payment_returns (db : Store) (obj : Application.t) :
  returns (ApplicationAdmin.has_payment db obj).
Proof.
  destruct (completed_decidable db obj) as [Hyes|Hno].
  - eexists. apply has_payment_positive. exact Hyes.
  - eexists. apply has_payment_negative. exact Hno.
Qed.

Lemma file_preview_returns (obj : ApplicationFile.t) :
  returns (ApplicationFileInline.file_preview obj).
Proof.
  unfold ApplicationFileInline.file_preview.
  destruct (FieldFile.truthy (ApplicationFile.file obj)).
  - rewrite format_preview. eexists. reflexivity.
  - eexists. reflexivity.
Qed.

Lemma raise_not_returns {A : Type} (m : result A) (e : exn) :
  m = Raise e -> ~ returns m.
Proof. intros -> (a & H). discriminate H. Qed.

(** C8: [has_payment] and [file_preview] return a value on every
    record, and [file_count] and the bulk actions are functions that
    cannot raise; but on the project's URL configuration
    [application_count] and [application_link] return a value on no
    record at all: each raises the framework's [NoReverseMatch] (or,
    for a payment whose application is missing, [DoesNotExist]). *)
Theorem helpers_return_except_link_columns :
  (forall db obj, returns (ApplicationAdmin.has_payment db obj))
  /\ (forall obj, returns (ApplicationFileInline.file_preview obj))
  /\ (forall db obj, exists n, ApplicationAdmin.file_count db obj = n)
  /\ (forall name act queryset db,
        In (name, act) ApplicationAdmin.actions -> exists db', act queryset db = db')
  /\ (forall db obj,
        ~ returns (DepartmentAdmin.application_count project_urlconf db obj))
  /\ (forall db obj,
        ~ returns (PaymentAdmin.application_link project_urlconf db obj)).
Proof.
  repeat split.
  - apply has_payment_returns.
  - apply file_preview_returns.
  - intros. eexists. reflexivity.
  - intros. eexists. reflexivity.
  - intros db obj. eapply raise_not_returns.
    unfold DepartmentAdmin.application_count.
    rewrite no_appname_changelist. reflexivity.
  - intros db obj. unfold PaymentAdmin.application_link.
    destruct (get_application db (Payment.application obj)) as [a|e]; cbn [bind].
    + rewrite no_appname_change. eapply raise_not_returns. reflexivity.
    + eapply raise_not_returns. reflexivity.
Qed.

(** * Further properties of the code *)

(** ** How bulk actions compose *)

Lemma store_eta (db : Store) :
  mkStore (departments db) (applications db) (application_files db) (payments db) = db.
Proof. destruct db; reflexivity. Qed.

Lemma selected_set_status (pks : list Z) (s : string) (a : Application.t) :
  ApplicationAdmin.selected pks (Application.set_status s a)
  = ApplicationAdmin.selected pks a.
Proof. reflexivity. Qed.

Lemma update_status_twice (q : @QuerySet.t Application.t) (s : string) (db : Store) :
  ApplicationAdmin.update_status q s (ApplicationAdmin.update_status q s db)
  = ApplicationAdmin.update_status q s db.
Proof.
  unfold ApplicationAdmin.update_status, QuerySet.update. cbn [departments applications
    application_files payments]. f_equal.
  rewrite map_map. apply map_ext. intros r.
  destruct (q r) eqn:E; [|rewrite E; reflexivity].
  destruct (q (Application.set_status s r)); reflexivity.
Qed.

Lemma update_status_overwrites (pks : list Z) (s1 s2 : string) (db : Store) :
  ApplicationAdmin.update_status (ApplicationAdmin.selected pks) s2
    (ApplicationAdmin.update_status (ApplicationAdmin.selected pks) s1 db)
  = ApplicationAdmin.update_status (ApplicationAdmin.selected pks) s2 db.
Proof.
  unfold ApplicationAdmin.update_status, QuerySet.update. cbn [departments applications
    application_files payments]. f_equal.
  rewrite map_map. apply map_ext. intros r.
  destruct (ApplicationAdmin.selected pks r) eqn:E.
  - rewrite selected_set_status, E. reflexivity.
  - rewrite E. reflexivity.
Qed.

Lemma update_status_commutes (p1 p2 : list Z) (s1 s2 : string) (db : Store) :
  (forall k, In k p1 -> ~ In k p2) ->
  ApplicationAdmin.update_status (ApplicationAdmin.selected p1) s1
    (ApplicationAdmin.update_status (ApplicationAdmin.selected p2) s2 db)
  = ApplicationAdmin.update_status (ApplicationAdmin.selected p2) s2
      (ApplicationAdmin.update_status (ApplicationAdmin.selected p1) s1 db).
Proof.
  intros Hdisjoint.
  unfold ApplicationAdmin.update_status, QuerySet.update. cbn [departments applications
    application_files payments]. f_equal.
  rewrite !map_map. apply map_ext. intros r.
  destruct (ApplicationAdmin.selected p1 r) eqn:E1;
    destruct (ApplicationAdmin.selected p2 r) eqn:E2.
  - apply selected_spec in E1, E2. destruct (Hdisjoint _ E1 E2).
  - cbv iota. rewrite selected_set_status, ?E1, ?E2. reflexivity.
  - cbv iota. rewrite selected_set_status, ?E1, ?E2. reflexivity.
  - cbv iota. rewrite ?E1, ?E2. reflexivity.
Qed.

Lemma update_status_none_selected (q : @QuerySet.t Application.t) (s : string)
    (db : Store) :
  (forall a, In a (applications db) -> q a = false) ->
  ApplicationAdmin.update_status q s db = db.
Proof.
  intros Hnone. unfold ApplicationAdmin.update_status, QuerySet.update.
  rewrite <- (store_eta db) at 5. f_equal.
  rewrite <- (map_id (applications db)) at 2. apply map_ext_in.
  intros r Hr. rewrite (Hnone r Hr). reflexivity.
Qed.

Ltac in_actions := simpl; auto 6.

(** X1: running a bulk action a second time on the same query set
    changes nothing more, whatever the query set selects on. *)
Theorem bulk_action_idempotent (name : string)
    (act : @QuerySet.t Application.t -> Store -> Store) :
  In (name, act) ApplicationAdmin.actions ->
  forall (queryset : @QuerySet.t Application.t) (db : Store),
    act queryset (act queryset db) = act queryset db.
Proof.
  intros Hact queryset db.
  destruct (action_has_target name act Hact) as (target & Htarget & _).
  rewrite !(action_is_update name target act Hact Htarget).
  apply update_status_twice.
Qed.

Lemma bulk_action_idempotent_witness :
  ApplicationAdmin.mark_as_under_review (ApplicationAdmin.selected [1; 3])
    (ApplicationAdmin.mark_as_under_review (ApplicationAdmin.selected [1; 3])
       Sample.store)
  = ApplicationAdmin.mark_as_under_review (ApplicationAdmin.selected [1; 3])
      Sample.store.
Proof.
  apply (bulk_action_idempotent "mark_as_under_review"
           ApplicationAdmin.mark_as_under_review).
  in_actions.
Defined.

(** X2: of two bulk actions run one after the other on the same ticked
    rows, only the second shows: the store is the one the second action
    alone would have produced. *)
Theorem bulk_action_last_wins (name1 name2 : string)
    (act1 act2 : @QuerySet.t Application.t -> Store -> Store) :
  In (name1, act1) ApplicationAdmin.actions ->
  In (name2, act2) ApplicationAdmin.actions ->
  forall (pks : list Z) (db : Store),
    act2 (ApplicationAdmin.selected pks) (act1 (ApplicationAdmin.selected pks) db)
    = act2 (ApplicationAdmin.selected pks) db.
Proof.
  intros H1 H2 pks db.
  destruct (action_has_target name1 act1 H1) as (t1 & Ht1 & _).
  destruct (action_has_target name2 act2 H2) as (t2 & Ht2 & _).
  rewrite (action_is_update name1 t1 act1 H1 Ht1).
  rewrite !(action_is_update name2 t2 act2 H2 Ht2).
  apply update_status_overwrites.
Qed.

Lemma bulk_action_last_wins_witness :
  ApplicationAdmin.mark_as_pending (ApplicationAdmin.selected [2; 3])
    (ApplicationAdmin.mark_as_approved (ApplicationAdmin.selected [2; 3]) Sample.store)
  = ApplicationAdmin.mark_as_pending (ApplicationAdmin.selected [2; 3]) Sample.store.
Proof.
  apply (bulk_action_last_wins "mark_as_approved" "mark_as_pending"
           ApplicationAdmin.mark_as_approved ApplicationAdmin.mark_as_pending);
    in_actions.
Defined.

(** X3: bulk actions run on selections that share no primary key can be
    run in either order. *)
Theorem bulk_actions_on_disjoint_selections_commute (name1 name2 : string)
    (act1 act2 : @QuerySet.t Application.t -> Store -> Store) (p1 p2 : list Z) :
  In (name1, act1) ApplicationAdmin.actions ->
  In (name2, act2) ApplicationAdmin.actions ->
  (forall k, In k p1 -> ~ In k p2) ->
  forall db : Store,
    act1 (ApplicationAdmin.selected p1) (act2 (ApplicationAdmin.selected p2) db)
    = act2 (ApplicationAdmin.selected p2) (act1 (ApplicationAdmin.selected p1) db).
Proof.
  intros H1 H2 Hdisjoint db.
  destruct (action_has_target name1 act1 H1) as (t1 & Ht1 & _).
  destruct (action_has_target name2 act2 H2) as (t2 & Ht2 & _).
  rewrite !(action_is_update name1 t1 act1 H1 Ht1).
  rewrite !(action_is_update name2 t2 act2 H2 Ht2).
  apply update_status_commutes. exact Hdisjoint.
Qed.

Lemma bulk_actions_on_disjoint_selections_commute_witness :
  ApplicationAdmin.mark_as_approved (ApplicationAdmin.selected [1; 2])
    (ApplicationAdmin.mark_as_rejected (ApplicationAdmin.selected [3]) Sample.store)
  = ApplicationAdmin.mark_as_rejected (ApplicationAdmin.selected [3])
      (ApplicationAdmin.mark_as_approved (ApplicationAdmin.selected [1; 2])
         Sample.store).
Proof.
  apply (bulk_actions_on_disjoint_selections_commute
           "mark_as_approved" "mark_as_rejected"
           ApplicationAdmin.mark_as_approved ApplicationAdmin.mark_as_rejected
           [1; 2] [3]); [in_actions|in_actions|].
  intros k [<-|[<-|[]]] [H|[]]; discriminate H.
Defined.

(** X4: a bulk action whose query set selects no row of the table, the
    empty selection included, returns the store as it was. *)
Theorem bulk_action_on_nothing (name : string)
    (act : @QuerySet.t Application.t -> Store -> Store)
    (queryset : @QuerySet.t Application.t) (db : Store) :
  In (name, act) ApplicationAdmin.actions ->
  (forall a, In a (applications db) -> queryset a = false) ->
  act queryset db = db.
Proof.
  intros Hact Hnone.
  destruct (action_has_target name act Hact) as (target & Htarget & _).
  rewrite (action_is_update name target act Hact Htarget).
  apply update_status_none_selected. exact Hnone.
Qed.

Lemma bulk_action_on_nothing_witness :
  ApplicationAdmin.mark_as_rejected (ApplicationAdmin.selected []) Sample.store
  = Sample.store.
Proof.
  apply (bulk_action_on_nothing "mark_as_rejected" ApplicationAdmin.mark_as_rejected).
  - in_actions.
  - intros a _. reflexivity.
Defined.

Example bulk_action_on_missing_keys :
  ApplicationAdmin.mark_as_rejected (ApplicationAdmin.selected [7; 8]) Sample.store
  = Sample.store.
Proof. reflexivity. Qed.

(** ** Counting after an update *)

Lemma filter_map_length {A : Type} (p : A -> bool) (f : A -> A) (l : list A) :
  (forall x, p (f x) = p x) ->
  List.length (List.filter p (map f l)) = List.length (List.filter p l).
Proof.
  intros Hp. induction l as [|x l IH]; [reflexivity|].
  cbn [map List.filter]. rewrite Hp. destruct (p x); cbn [List.length]; congruence.
Qed.

Lemma update_status_count (q : @QuerySet.t Application.t) (s : string)
    (db : Store) (d : Department.t) :
  QuerySet.count (applications (ApplicationAdmin.update_status q s db)) (application_set d)
  = QuerySet.count (applications db) (application_set d).
Proof.
  unfold QuerySet.count, QuerySet.rows, ApplicationAdmin.update_status, QuerySet.update.
  cbn [applications]. f_equal. apply filter_map_length.
  intros a. destruct (q a); reflexivity.
Qed.

(** ** The list edit of the status column *)

Lemma mem_in (x : string) (l : list string) : Forms.mem x l = true <-> In x l.
Proof.
  unfold Forms.mem. rewrite existsb_exists. split.
  - intros (y & Hin & Hy). apply String.eqb_eq in Hy. congruence.
  - intros Hin. exists x. split; [exact Hin|apply String.eqb_refl].
Qed.

Lemma selected_one (pk : Z) (a : Application.t) :
  ApplicationAdmin.selected [pk] a = (Application.id a =? pk).
Proof. unfold ApplicationAdmin.selected. cbn [existsb]. apply orb_false_r. Qed.

Lemma list_edit_save (posted : list (string * string)) (v : string) (a : Application.t) :
  Forms.lookup "status" posted = Some v ->
  Forms.save ApplicationAdmin.assign ApplicationAdmin.list_editable posted a
  = Application.set_status v a.
Proof.
  intros H. unfold Forms.save, ApplicationAdmin.list_editable. cbn [fold_left].
  rewrite H. reflexivity.
Qed.

Lemma list_edit_update (pk : Z) (posted : list (string * string))
    (v : string) (db : Store) :
  Forms.lookup "status" posted = Some v ->
  In v status_choices ->
  ApplicationAdmin.list_edit pk posted db
  = ApplicationAdmin.update_status (ApplicationAdmin.selected [pk]) v db.
Proof.
  intros Hposted Hv. unfold ApplicationAdmin.list_edit. rewrite Hposted.
  apply mem_in in Hv. rewrite Hv.
  unfold ApplicationAdmin.update_status, QuerySet.update. f_equal.
  apply map_ext. intros a. rewrite selected_one.
  destruct (Application.id a =? pk); [apply list_edit_save; exact Hposted|reflexivity].
Qed.



Example list_edit_writes_status_only :
  applications
    (ApplicationAdmin.list_edit 2
       [("full_name", "Mallory"); ("status", "rejected"); ("cgpa", "400")]
       Sample.store)
  = [Sample.a1; Sample.app 2 "Rahim & Sons" "rejected"; Sample.a3].
Proof. reflexivity. Qed.



(** ** What every run keeps *)

Lemma update_status_ids (q : @QuerySet.t Application.t) (s : string) (db : Store) :
  application_ids (ApplicationAdmin.update_status q s db) = application_ids db.
Proof.
  unfold application_ids, ApplicationAdmin.update_status, QuerySet.update.
  cbn [applications]. rewrite map_map. apply map_ext.
  intros a. destruct (q a); reflexivity.
Qed.

Lemma update_status_valid (q : @QuerySet.t Application.t) (s : string) (db : Store) :
  In s status_choices -> statuses_valid db ->
  statuses_valid (ApplicationAdmin.update_status q s db).
Proof.
  intros Hs Hvalid a' Ha'.
  unfold ApplicationAdmin.update_status, QuerySet.update in Ha'. cbn [applications] in Ha'.
  apply in_map_iff in Ha' as (a & <- & Ha).
  destruct (q a); [exact Hs|exact (Hvalid a Ha)].
Qed.

Lemma list_edit_cases (pk : Z) (posted : list (string * string)) (db : Store) :
  ApplicationAdmin.list_edit pk posted db = db
  \/ exists v, In v status_choices
       /\ ApplicationAdmin.list_edit pk posted db
          = ApplicationAdmin.update_status (ApplicationAdmin.selected [pk]) v db.
Proof.
  destruct (Forms.lookup "status" posted) as [v|] eqn:Hposted.
  - destruct (Forms.mem v status_choices) eqn:Hv.
    + right. exists v. apply mem_in in Hv. split; [exact Hv|].
      apply list_edit_update; assumption.
    + left. unfold ApplicationAdmin.list_edit. rewrite Hposted, Hv. reflexivity.
  - left. unfold ApplicationAdmin.list_edit. rewrite Hposted. reflexivity.
Qed.

Lemma step_keeps (db db' : Store) (o : op) :
  step db o db' ->
  application_ids db' = application_ids db
  /\ departments db' = departments db
  /\ application_files db' = application_files db
  /\ payments db' = payments db
  /\ (statuses_valid db -> statuses_valid db').
Proof.
  intros Hstep. destruct Hstep as [name act pks db Hact|pk posted db].
  - destruct (action_has_target name act Hact) as (target & Htarget & Hchoice).
    rewrite (action_is_update name target act Hact Htarget).
    split; [apply update_status_ids|]. repeat (split; [reflexivity|]).
    apply update_status_valid. exact Hchoice.
  - destruct (list_edit_cases pk posted db) as [->|(v & Hv & ->)].
    + repeat (split; [reflexivity|]). auto.
    + split; [apply update_status_ids|]. repeat (split; [reflexivity|]).
      apply update_status_valid. exact Hv.
Qed.

(** X7: whatever bulk actions and list edits are run, in whatever
    order, the applications table keeps its rows and their primary keys,
    the other three tables are not written, and if every status was one
    of the four choices before, every status is one of them after. *)
Theorem run_keeps (db db' : Store) (ops : list op) :
  run db ops db' ->
  application_ids db' = application_ids db
  /\ departments db' = departments db
  /\ application_files db' = application_files db
  /\ payments db' = payments db
  /\ (statuses_valid db -> statuses_valid db').
Proof.
  intros Hrun. induction Hrun as [db|db o db1 ops db2 Hstep _ IH].
  - repeat (split; [reflexivity|]). auto.
  - destruct (step_keeps _ _ _ Hstep) as (H1 & H2 & H3 & H4 & H5).
    destruct IH as (I1 & I2 & I3 & I4 & I5).
    repeat split; try congruence. auto.
Qed.

Lemma sample_run :
  run Sample.store
      [Bulk "mark_as_approved" [1; 3]; ListEdit 2 [("status", "pending")];
       Bulk "mark_as_rejected" [3]]
      (ApplicationAdmin.mark_as_rejected (ApplicationAdmin.selected [3])
         (ApplicationAdmin.list_edit 2 [("status", "pending")]
            (ApplicationAdmin.mark_as_approved (ApplicationAdmin.selected [1; 3])
               Sample.store))).
Proof.
  eapply run_cons; [apply (step_bulk "mark_as_approved"); in_actions|].
  eapply run_cons; [apply step_list_edit|].
  eapply run_cons; [apply (step_bulk "mark_as_rejected"); in_actions|].
  apply run_nil.
Defined.

Lemma run_keeps_witness :
  let db' :=
    ApplicationAdmin.mark_as_rejected (ApplicationAdmin.selected [3])
      (ApplicationAdmin.list_edit 2 [("status", "pending")]
         (ApplicationAdmin.mark_as_approved (ApplicationAdmin.selected [1; 3])
            Sample.store)) in
  application_ids db' = application_ids Sample.store
  /\ departments db' = departments Sample.store
  /\ application_files db' = application_files Sample.store
  /\ payments db' = payments Sample.store
  /\ (statuses_valid Sample.store -> statuses_valid db').
Proof.
  exact (run_keeps _ _ _ sample_run).
Defined.

Example sample_statuses_valid : statuses_valid Sample.store.
Proof.
  intros a [<-|[<-|[<-|[]]]]; in_actions.
Qed.

(** ** What is written into the page *)

Lemma has_markup_app (s t : string) :
  has_markup (s ++ t) = has_markup s || has_markup t.
Proof.
  induction s as [|c s IH]; [reflexivity|].
  cbn [append has_markup]. rewrite IH. apply orb_assoc.
Qed.

Lemma has_markup_escape_char (c : ascii) : has_markup (escape_char c) = false.
Proof.
  unfold escape_char.
  destruct (Ascii.eqb c "&") eqn:E1; [reflexivity|].
  destruct (Ascii.eqb c "<") eqn:E2; [reflexivity|].
  destruct (Ascii.eqb c ">") eqn:E3; [reflexivity|].
  destruct (Ascii.eqb c dquote_char) eqn:E4; [reflexivity|].
  destruct (Ascii.eqb c squote_char) eqn:E5; [reflexivity|].
  cbn [has_markup]. unfold is_markup. rewrite E2, E3, E4, E5. reflexivity.
Qed.

Lemma has_markup_escape (s : string) : has_markup (escape s) = false.
Proof.
  induction s as [|c s IH]; [reflexivity|].
  cbn [escape]. rewrite has_markup_app, has_markup_escape_char, IH. reflexivity.
Qed.

Lemma truthy_name (f : FieldFile.t) :
  FieldFile.truthy f = false <-> FieldFile.name f = EmptyString.
Proof.
  unfold FieldFile.truthy. destruct (FieldFile.name f); split; congruence.
Qed.

(** X8: the preview column is the dash exactly when the row has no file
    attached (the name of its file field is empty); with a file attached
    it is the anchor that opens the file's URL in a new tab. *)
Theorem file_preview_dash_iff_no_file (obj : ApplicationFile.t) :
  (ApplicationFileInline.file_preview obj = Ok "-"
   <-> FieldFile.name (ApplicationFile.file obj) = EmptyString)
  /\ (FieldFile.name (ApplicationFile.file obj) <> EmptyString ->
      ApplicationFileInline.file_preview obj
      = Ok (Spec.preview_link (escape (FieldFile.url (ApplicationFile.file obj))))).
Proof.
  unfold ApplicationFileInline.file_preview.
  destruct (FieldFile.truthy (ApplicationFile.file obj)) eqn:E.
  - assert (FieldFile.name (ApplicationFile.file obj) <> EmptyString) as Hname.
    { intros H. apply truthy_name in H. congruence. }
    rewrite format_preview. split; [|reflexivity].
    split; [intros H; discriminate H|intros H; contradiction].
  - apply truthy_name in E. split; [split; auto|]. intros H. contradiction.
Qed.

(** X9: whatever the URL of the attached file holds, the address that
    the preview column writes between the quotes of [href] has no quote
    and no angle bracket in it, and reads back as that URL. *)
Theorem file_preview_address_is_escaped (obj : ApplicationFile.t) :
  FieldFile.truthy (ApplicationFile.file obj) = true ->
  exists href,
    ApplicationFileInline.file_preview obj
    = Ok ("<a href=" ++ dq ++ href ++ dq ++ " target=" ++ dq ++ "_blank" ++ dq
          ++ ">View File</a>")
    /\ has_markup href = false
    /\ unescape href = FieldFile.url (ApplicationFile.file obj).
Proof.
  intros Hfile. exists (escape (FieldFile.url (ApplicationFile.file obj))).
  unfold ApplicationFileInline.file_preview. rewrite Hfile.
  split; [apply format_preview|]. split; [apply has_markup_escape|apply unescape_escape].
Qed.

Lemma file_preview_address_is_escaped_witness :
  exists href,
    ApplicationFileInline.file_preview
      (ApplicationFile.mk 9 1
         (FieldFile.mk "x.pdf" ("/media/x.pdf?a=1&b=" ++ dq ++ "><script>")) 5)
    = Ok ("<a href=" ++ dq ++ href ++ dq ++ " target=" ++ dq ++ "_blank" ++ dq
          ++ ">View File</a>")
    /\ has_markup href = false
    /\ unescape href = "/media/x.pdf?a=1&b=" ++ dq ++ "><script>".
Proof.
  apply (file_preview_address_is_escaped
           (ApplicationFile.mk 9 1
              (FieldFile.mk "x.pdf" ("/media/x.pdf?a=1&b=" ++ dq ++ "><script>")) 5)).
  reflexivity.
Defined.

(** ** The link columns, error and success *)

Lemma get_application_missing (db : Store) (pk : Z) :
  (forall a, In a (applications db) -> Application.id a <> pk) ->
  get_application db pk = Raise (DoesNotExist "Application").
Proof.
  intros Hmissing. unfold get_application.
  destruct (find (fun a => Application.id a =? pk) (applications db)) as [a|] eqn:E;
    [|reflexivity].
  apply find_some in E as [Ha E]. apply Z.eqb_eq in E. destruct (Hmissing a Ha E).
Qed.

(** X10: for a payment whose application is the key of no row,
    [application_link] raises [DoesNotExist] under every URL
    configuration: the application is fetched before any URL is
    reversed. *)
Theorem application_link_missing_application (conf : Urls.urlconf) (db : Store)
    (obj : Payment.t) :
  (forall a, In a (applications db) -> Application.id a <> Payment.application obj) ->
  PaymentAdmin.application_link conf db obj = Raise (DoesNotExist "Application").
Proof.
  intros Hmissing. unfold PaymentAdmin.application_link.
  rewrite (get_application_missing _ _ Hmissing). reflexivity.
Qed.

Lemma application_link_missing_application_witness :
  PaymentAdmin.application_link
    (Urls.admin_urls admin_prefix "appname" registered_models)
    Sample.store (Sample.pay 5 42 10 "completed")
  = Raise (DoesNotExist "Application").
Proof.
  apply application_link_missing_application.
  intros a [<-|[<-|[<-|[]]]]; discriminate.
Defined.

(** X11: under a URL configuration in which the view name that
    [application_count] reverses resolves, the column is an anchor whose
    label is the number of applications that reference the department
    and whose address, free of quotes and angle brackets, reads back as
    the resolved URL followed by [?department__id__exact=] and the
    department's key. *)
Theorem application_count_link (conf : Urls.urlconf) (base : string)
    (db : Store) (obj : Department.t) :
  Urls.reverse conf "admin:appname_application_changelist" [] = Ok base ->
  exists href,
    DepartmentAdmin.application_count conf db obj
    = Ok ("<a href=" ++ dq ++ href ++ dq ++ ">"
          ++ str_int (Z.of_nat (Spec.applications_of obj (applications db)))
          ++ "</a>")
    /\ has_markup href = false
    /\ unescape href
       = base ++ "?department__id__exact=" ++ str_int (Department.id obj).
Proof.
  intros Hbase. eexists. split; [|split].
  - rewrite (application_count_when_resolved conf base db obj Hbase). reflexivity.
  - apply has_markup_escape.
  - apply unescape_escape.
Qed.

Lemma application_count_link_witness :
  exists href,
    DepartmentAdmin.application_count
      (Urls.admin_urls admin_prefix "appname" registered_models) Sample.store Sample.d1
    = Ok ("<a href=" ++ dq ++ href ++ dq ++ ">"
          ++ str_int (Z.of_nat (Spec.applications_of Sample.d1 (applications Sample.store)))
          ++ "</a>")
    /\ has_markup href = false
    /\ unescape href
       = "/admin/appname/application/" ++ "?department__id__exact="
         ++ str_int (Department.id Sample.d1).
Proof.
  apply (application_count_link
           (Urls.admin_urls admin_prefix "appname" registered_models)
           "/admin/appname/application/" Sample.store Sample.d1).
  reflexivity.
Defined.

(** X12: under a URL configuration in which the view name that
    [application_link] reverses resolves, the column of a payment whose
    application exists is an anchor whose address reads back as the
    resolved URL and whose label reads back as the application's full
    name; neither holds a quote or an angle bracket, whatever the name
    holds. *)
Theorem application_link_anchor (conf : Urls.urlconf) (link : string)
    (db : Store) (obj : Payment.t) (a : Application.t) :
  get_application db (Payment.application obj) = Ok a ->
  Urls.reverse conf "admin:appname_application_change" [Application.id a] = Ok link ->
  exists href label,
    PaymentAdmin.application_link conf db obj
    = Ok ("<a href=" ++ dq ++ href ++ dq ++ ">" ++ label ++ "</a>")
    /\ has_markup href = false /\ unescape href = link
    /\ has_markup label = false /\ unescape label = Application.full_name a.
Proof.
  intros Hget Hrev. exists (escape link), (escape (Application.full_name a)).
  split; [apply (application_link_when_resolved conf link db obj a Hget Hrev)|].
  repeat split; auto using has_markup_escape, unescape_escape.
Qed.

Lemma application_link_anchor_witness :
  exists href label,
    PaymentAdmin.application_link
      (Urls.admin_urls admin_prefix "appname" registered_models)
      Sample.store (Sample.pay 1 1 100 "completed")
    = Ok ("<a href=" ++ dq ++ href ++ dq ++ ">" ++ label ++ "</a>")
    /\ has_markup href = false
    /\ unescape href = "/admin/appname/application/1/change/"
    /\ has_markup label = false
    /\ unescape label = Application.full_name Sample.a1.
Proof.
  apply (application_link_anchor
           (Urls.admin_urls admin_prefix "appname" registered_models)
           "/admin/appname/application/1/change/"
           Sample.store (Sample.pay 1 1 100 "completed") Sample.a1);
    reflexivity.
Defined.

(** ** The payment cell, from the rows it reads *)

Lemma has_payment_from_rows (db : Store) (obj : Application.t) :
  ApplicationAdmin.has_payment db obj
  = match Spec.completed_payments db obj with
    | [] => Ok Spec.negative_cell
    | rs => Ok (Spec.positive_cell (Spec.total rs))
    end.
Proof.
  unfold ApplicationAdmin.has_payment, QuerySet.exists_, QuerySet.aggregate_sum.
  cbv zeta. rewrite completed_rows.
  destruct (Spec.completed_payments db obj) as [|r rs]; [apply format_negative|].
  rewrite or_zero_some, sum_total. apply format_positive.
Qed.

Lemma filter_total_perm (q : Payment.t -> bool) (l l' : list Payment.t) :
  Permutation l l' ->
  Spec.total (List.filter q l) = Spec.total (List.filter q l')
  /\ (List.filter q l = [] <-> List.filter q l' = []).
Proof.
  intros H. induction H as [|x l l' _ [IHt IHe]|x y l|l l' l'' _ [IHt IHe] _ [IHt' IHe']].
  - split; [reflexivity|tauto].
  - cbn [List.filter]. destruct (q x); cbn [Spec.total]; split; try lia; try tauto.
    split; discriminate.
  - cbn [List.filter]. destruct (q x), (q y); cbn [Spec.total]; split; try lia;
      try tauto; split; discriminate.
  - split; [congruence|tauto].
Qed.

Lemma filter_length_perm {A : Type} (q : A -> bool) (l l' : list A) :
  Permutation l l' ->
  List.length (List.filter q l) = List.length (List.filter q l').
Proof.
  intros H. induction H as [|x l l' _ IH|x y l|l l' l'' _ IH _ IH'].
  - reflexivity.
  - cbn [List.filter]. destruct (q x); cbn [List.length]; congruence.
  - cbn [List.filter]. destruct (q x), (q y); reflexivity.
  - congruence.
Qed.

(** X13: the derived columns do not depend on the order of the rows in
    the tables they query: on two stores whose tables hold the same rows
    in different orders, the payment cell and the file count of every
    application and the application count of every department are the
    same. *)
Theorem derived_columns_ignore_row_order (db1 db2 : Store) :
  Permutation (applications db1) (applications db2) ->
  Permutation (application_files db1) (application_files db2) ->
  Permutation (payments db1) (payments db2) ->
  (forall obj, ApplicationAdmin.has_payment db1 obj = ApplicationAdmin.has_payment db2 obj)
  /\ (forall obj, ApplicationAdmin.file_count db1 obj = ApplicationAdmin.file_count db2 obj)
  /\ (forall conf d, DepartmentAdmin.application_count conf db1 d
                     = DepartmentAdmin.application_count conf db2 d).
Proof.
  intros Happs Hfiles Hpays. split; [|split].
  - intros obj. rewrite !has_payment_from_rows. unfold Spec.completed_payments.
    destruct (filter_total_perm
                (fun p => (Payment.application p =? Application.id obj)
                          && String.eqb (Payment.status p) "completed")
                _ _ Hpays) as [Ht He].
    destruct (List.filter _ (payments db1)) as [|r1 rs1] eqn:E1.
    + rewrite (proj1 He eq_refl). reflexivity.
    + destruct (List.filter _ (payments db2)) as [|r2 rs2] eqn:E2.
      * pose proof (proj2 He eq_refl) as E. discriminate E.
      * rewrite Ht. reflexivity.
  - intros obj. unfold ApplicationAdmin.file_count, QuerySet.count, QuerySet.rows.
    f_equal. apply filter_length_perm. exact Hfiles.
  - intros conf d. unfold DepartmentAdmin.application_count, QuerySet.count, QuerySet.rows.
    rewrite (filter_length_perm (application_set d) _ _ Happs). reflexivity.
Qed.

Lemma derived_columns_ignore_row_order_witness :
  let db2 := mkStore (departments Sample.store)
                     (rev (applications Sample.store))
                     (rev (application_files Sample.store))
                     (rev (payments Sample.store)) in
  (forall obj, ApplicationAdmin.has_payment Sample.store obj
               = ApplicationAdmin.has_payment db2 obj)
  /\ (forall obj, ApplicationAdmin.file_count Sample.store obj
                  = ApplicationAdmin.file_count db2 obj)
  /\ (forall conf d, DepartmentAdmin.application_count conf Sample.store d
                     = DepartmentAdmin.application_count conf db2 d).
Proof.
  apply (derived_columns_ignore_row_order Sample.store
           (mkStore (departments Sample.store)
                    (rev (applications Sample.store))
                    (rev (application_files Sample.store))
                    (rev (payments Sample.store))));
    apply Permutation_rev.
Defined.

(** X14: what a new payment row does to the payment cell of an
    application.  A row that belongs to another application, or whose
    status is anything but [completed], leaves the cell as it was; a
    completed row of the application makes the cell positive with the
    row's amount added to the total. *)
Theorem has_payment_after_new_payment (db db' : Store) (p : Payment.t)
    (obj : Application.t) :
  payments db' = p :: payments db ->
  (Payment.application p <> Application.id obj \/ Payment.status p <> "completed" ->
   ApplicationAdmin.has_payment db' obj = ApplicationAdmin.has_payment db obj)
  /\ (Payment.application p = Application.id obj -> Payment.status p = "completed" ->
      ApplicationAdmin.has_payment db' obj
      = Ok (Spec.positive_cell
              (Payment.amount p + Spec.total (Spec.completed_payments db obj)))).
Proof.
  intros Hnew. rewrite !has_payment_from_rows. unfold Spec.completed_payments.
  rewrite Hnew. cbn [List.filter]. split.
  - intros Hother.
    destruct (Z.eqb_spec (Payment.application p) (Application.id obj)) as [Ha|Ha];
      [|reflexivity].
    destruct (String.eqb_spec (Payment.status p) "completed") as [Hs|Hs];
      [|reflexivity].
    destruct Hother; contradiction.
  - intros Ha Hs. rewrite Ha, Hs, Z.eqb_refl, String.eqb_refl. reflexivity.
Qed.

Lemma has_payment_after_new_payment_witness :
  let p := Sample.pay 9 3 40 "completed" in
  let db' := mkStore (departments Sample.store) (applications Sample.store)
                     (application_files Sample.store) (p :: payments Sample.store) in
  (Payment.application p <> Application.id Sample.a3
   \/ Payment.status p <> "completed" ->
   ApplicationAdmin.has_payment db' Sample.a3
   = ApplicationAdmin.has_payment Sample.store Sample.a3)
  /\ (Payment.application p = Application.id Sample.a3 ->
      Payment.status p = "completed" ->
      ApplicationAdmin.has_payment db' Sample.a3
      = Ok (Spec.positive_cell
              (Payment.amount p
               + Spec.total (Spec.completed_payments Sample.store Sample.a3)))).
Proof.
  apply (has_payment_after_new_payment Sample.store
           (mkStore (departments Sample.store) (applications Sample.store)
                    (application_files Sample.store)
                    (Sample.pay 9 3 40 "completed" :: payments Sample.store))
           (Sample.pay 9 3 40 "completed") Sample.a3).
  reflexivity.
Defined.

Example has_payment_after_new_payment_example :
  ApplicationAdmin.has_payment
    (mkStore (departments Sample.store) (applications Sample.store)
             (application_files Sample.store)
             (Sample.pay 9 3 40 "completed" :: payments Sample.store))
    Sample.a3
  = Ok ("<span style=" ++ dq ++ "color: green;" ++ dq ++ ">✓ ($40)</span>").
Proof. reflexivity. Qed.

(** ** The file counts, taken together *)

Lemma sum_over_add {A : Type} (f g : A -> Z) (l : list A) :
  sum_over (fun x => f x + g x) l = sum_over f l + sum_over g l.
Proof.
  unfold sum_over. induction l as [|x l IH]; [reflexivity|].
  cbn [fold_right]. rewrite IH. lia.
Qed.

Lemma sum_over_zero {A : Type} (f : A -> Z) (l : list A) :
  (forall x, In x l -> f x = 0) -> sum_over f l = 0.
Proof.
  induction l as [|x l IH]; intros H; [reflexivity|].
  cbn [sum_over fold_right]. fold (sum_over f l).
  rewrite (H x (or_introl eq_refl)), IH; [reflexivity|].
  intros y Hy. apply H. right. exact Hy.
Qed.

Lemma one_owner (k : Z) (apps : list Application.t) :
  NoDup (map Application.id apps) ->
  In k (map Application.id apps) ->
  sum_over (fun a => if k =? Application.id a then 1 else 0) apps = 1.
Proof.
  induction apps as [|a apps IH]; intros Hnodup Hin; [destruct Hin|].
  cbn [map] in Hnodup, Hin. inversion Hnodup as [|? ? Hfresh Hrest]; subst.
  cbn [sum_over fold_right].
  fold (sum_over (fun a0 => if k =? Application.id a0 then 1 else 0) apps).
  destruct (Z.eqb_spec k (Application.id a)) as [->|Hne].
  - rewrite sum_over_zero; [reflexivity|].
    intros b Hb. destruct (Z.eqb_spec (Application.id a) (Application.id b)) as [E|_];
      [|reflexivity].
    destruct Hfresh. rewrite E. apply in_map. exact Hb.
  - destruct Hin as [E|Hin]; [congruence|]. rewrite (IH Hrest Hin). reflexivity.
Qed.

Lemma count_cons (f : ApplicationFile.t) (fs : list ApplicationFile.t)
    (a : Application.t) :
  QuerySet.count (f :: fs) (applicationfile_set a)
  = (if ApplicationFile.application f =? Application.id a then 1 else 0)
    + QuerySet.count fs (applicationfile_set a).
Proof.
  unfold QuerySet.count, QuerySet.rows. cbn [List.filter].
  unfold applicationfile_set at 1.
  destruct (ApplicationFile.application f =? Application.id a);
    cbn [List.length]; lia.
Qed.

Lemma file_counts_sum (apps : list Application.t) (fs : list ApplicationFile.t) :
  NoDup (map Application.id apps) ->
  (forall f, In f fs -> In (ApplicationFile.application f) (map Application.id apps)) ->
  sum_over (fun a => QuerySet.count fs (applicationfile_set a)) apps
  = Z.of_nat (List.length fs).
Proof.
  intros Hnodup. induction fs as [|f fs IH]; intros Howned.
  - apply sum_over_zero. reflexivity.
  - transitivity
      (sum_over (fun a => (if ApplicationFile.application f =? Application.id a
                           then 1 else 0)
                          + QuerySet.count fs (applicationfile_set a)) apps).
    + clear. induction apps as [|a apps IHa]; [reflexivity|].
      cbn [sum_over fold_right]. rewrite count_cons. f_equal. exact IHa.
    + rewrite sum_over_add, one_owner, IH.
      * cbn [List.length]. lia.
      * intros g Hg. apply Howned. right. exact Hg.
      * exact Hnodup.
      * apply Howned. left. reflexivity.
Qed.

(** X15: when the applications have distinct primary keys and every
    file row belongs to one of them, the file counts of the applications
    add up to the number of rows of the files table: every file is
    counted for exactly one application. *)
Theorem file_counts_add_up (db : Store) :
  NoDup (application_ids db) ->
  (forall f, In f (application_files db) ->
             In (ApplicationFile.application f) (application_ids db)) ->
  sum_over (ApplicationAdmin.file_count db) (applications db)
  = Z.of_nat (List.length (application_files db)).
Proof.
  intros Hnodup Howned. unfold ApplicationAdmin.file_count.
  apply file_counts_sum; assumption.
Qed.

Lemma file_counts_add_up_witness :
  sum_over (ApplicationAdmin.file_count Sample.store) (applications Sample.store)
  = Z.of_nat (List.length (application_files Sample.store)).
Proof.
  apply (file_counts_add_up Sample.store).
  - repeat constructor; cbn; intuition discriminate.
  - intros f [<-|[<-|[]]]; cbn; auto.
Defined.

(** ** Saving a row of the nested file editor *)

Lemma inline_save_unfold (posted : list (string * ApplicationFileInline.value))
    (x : ApplicationFile.t) :
  ApplicationFileInline.save posted x
  = match Forms.lookup "file" posted with
    | Some (ApplicationFileInline.FileValue f) => ApplicationFile.set_file f x
    | _ => x
    end.
Proof.
  unfold ApplicationFileInline.save, Forms.save. rewrite inline_form. cbn [fold_left].
  destruct (Forms.lookup "file" posted) as [[f|ts]|]; reflexivity.
Qed.

(** X16: saving a row of the nested editor can replace the row's file
    and nothing else.  The row keeps its key and its application; a
    submission that carries no file leaves the row as it is; one that
    carries a file puts that file in the row, and the preview column of
    the saved row then links to the new file (or is the dash, when the
    file was cleared). *)
Theorem inline_save_replaces_file_only
    (posted : list (string * ApplicationFileInline.value)) (x : ApplicationFile.t) :
  ApplicationFile.id (ApplicationFileInline.save posted x) = ApplicationFile.id x
  /\ ApplicationFile.application (ApplicationFileInline.save posted x)
     = ApplicationFile.application x
  /\ (Forms.lookup "file" posted = None -> ApplicationFileInline.save posted x = x)
  /\ (forall f, Forms.lookup "file" posted = Some (ApplicationFileInline.FileValue f) ->
        ApplicationFile.file (ApplicationFileInline.save posted x) = f
        /\ ApplicationFileInline.file_preview (ApplicationFileInline.save posted x)
           = if FieldFile.truthy f
             then Ok (Spec.preview_link (escape (FieldFile.url f)))
             else Ok "-").
Proof.
  rewrite inline_save_unfold.
  destruct (Forms.lookup "file" posted) as [[f|ts]|];
    (split; [reflexivity|]); (split; [reflexivity|]); split.
  - discriminate.
  - intros f' Hf'. injection Hf' as <-. split; [reflexivity|].
    unfold ApplicationFileInline.file_preview.
    cbn [ApplicationFile.set_file ApplicationFile.file].
    destruct (FieldFile.truthy f); [apply format_preview|reflexivity].
  - discriminate.
  - discriminate.
  - reflexivity.
  - discriminate.
Qed.

Example inline_save_then_preview :
  ApplicationFileInline.file_preview
    (ApplicationFileInline.save
       [("file", ApplicationFileInline.FileValue (FieldFile.mk "n.pdf" "/media/n.pdf"))]
       Sample.blank)
  = Ok (Spec.preview_link "/media/n.pdf").
Proof. reflexivity. Qed.

(** ** The status column of the payments list and the payment cell *)

Lemma payment_list_edit_rows (choices : list string) (pk : Z) (v : string) (db : Store) :
  In v choices ->
  payments (payment_list_edit choices pk [("status", v)] db)
  = map (fun p => if Payment.id p =? pk then payment_set_status v p else p)
        (payments db).
Proof.
  intros Hv. unfold payment_list_edit.
  change (Forms.lookup "status" [("status", v)]) with (Some v). cbv iota beta.
  apply mem_in in Hv. rewrite Hv. reflexivity.
Qed.

(** X17: the status column of the payments list feeds the payment cell
    of the applications list.  Once a payment of an application is saved
    in the payments list with status [completed] (one of the choices of
    the column), the application's cell shows the positive indicator;
    and once every completed payment of the application has been saved
    with another status, the cell is the negative one. *)
Theorem payment_list_edit_drives_has_payment (choices : list string) (pk : Z)
    (v : string) (db : Store) (obj : Application.t) :
  In v choices ->
  (v = "completed" ->
   (exists p, In p (payments db) /\ Payment.id p = pk
              /\ Payment.application p = Application.id obj) ->
   exists html,
     ApplicationAdmin.has_payment (payment_list_edit choices pk [("status", v)] db) obj
     = Ok html
     /\ Spec.positive_indicator html)
  /\ (v <> "completed" ->
      (forall p, In p (Spec.completed_payments db obj) -> Payment.id p = pk) ->
      ApplicationAdmin.has_payment (payment_list_edit choices pk [("status", v)] db) obj
      = Ok Spec.negative_cell).
Proof.
  intros Hv. split.
  - intros -> (p & Hin & Hpk & Happ).
    eexists. split; [|apply positive_cell_positive].
    apply has_payment_positive.
    exists (payment_set_status "completed" p). split; [|split; [exact Happ|reflexivity]].
    rewrite (payment_list_edit_rows choices pk "completed" db Hv).
    apply in_map_iff. exists p. split; [|exact Hin].
    rewrite Hpk, Z.eqb_refl. reflexivity.
  - intros Hother Hall. apply has_payment_negative.
    intros (p' & Hin' & Happ' & Hst').
    rewrite (payment_list_edit_rows choices pk v db Hv) in Hin'.
    apply in_map_iff in Hin' as (p & <- & Hin).
    destruct (Z.eqb_spec (Payment.id p) pk) as [Hpk|Hpk].
    + cbn in Hst'. contradiction.
    + apply Hpk, Hall. unfold Spec.completed_payments. apply filter_In.
      split; [exact Hin|]. rewrite Happ', Hst', Z.eqb_refl. reflexivity.
Qed.

Lemma payment_list_edit_drives_has_payment_witness :
  ("completed" = "completed" ->
   (exists p, In p (payments Sample.store) /\ Payment.id p = 4
              /\ Payment.application p = Application.id Sample.a3) ->
   exists html,
     ApplicationAdmin.has_payment
       (payment_list_edit ["pending"; "completed"; "failed"] 4
          [("status", "completed")] Sample.store) Sample.a3
     = Ok html
     /\ Spec.positive_indicator html)
  /\ ("completed" <> "completed" ->
      (forall p, In p (Spec.completed_payments Sample.store Sample.a3) ->
                 Payment.id p = 4) ->
      ApplicationAdmin.has_payment
        (payment_list_edit ["pending"; "completed"; "failed"] 4
           [("status", "completed")] Sample.store) Sample.a3
      = Ok Spec.negative_cell).
Proof.
  apply (payment_list_edit_drives_has_payment ["pending"; "completed"; "failed"] 4
           "completed" Sample.store Sample.a3).
  in_actions.
Defined.

Example payment_list_edit_example :
  ApplicationAdmin.has_payment
    (payment_list_edit ["pending"; "completed"; "failed"] 4
       [("status", "completed")] Sample.store) Sample.a3
  = Ok ("<span style=" ++ dq ++ "color: green;" ++ dq ++ ">✓ ($20)</span>").
Proof. reflexivity. Qed.

Example payment_list_edit_away :
  ApplicationAdmin.has_payment
    (payment_list_edit ["pending"; "completed"; "failed"] 1 [("status", "failed")]
       Sample.store) Sample.a1
  = Ok ("<span style=" ++ dq ++ "color: green;" ++ dq ++ ">✓ ($50)</span>").
Proof. reflexivity. Qed.

(** ** What no run changes *)

Lemma step_is_update (db db' : Store) (o : op) :
  step db o db' ->
  exists q s, db' = ApplicationAdmin.update_status q s db.
Proof.
  intros Hstep. destruct Hstep as [name act pks db Hact|pk posted db].
  - destruct (action_has_target name act Hact) as (target & Htarget & _).
    exists (ApplicationAdmin.selected pks), target.
    apply (action_is_update name target act Hact Htarget).
  - destruct (list_edit_cases pk posted db) as [->|(v & _ & ->)].
    + exists (fun _ => false), EmptyString. symmetry.
      apply update_status_none_selected. reflexivity.
    + eexists _, _. reflexivity.
Qed.

Lemma find_map_same {A : Type} (p : A -> bool) (f : A -> A) (l : list A) :
  (forall x, p (f x) = p x) ->
  find p (map f l) = option_map f (find p l).
Proof.
  intros Hp. induction l as [|x l IH]; [reflexivity|].
  cbn [map find]. rewrite Hp. destruct (p x); [reflexivity|exact IH].
Qed.

Lemma update_status_link (q : @QuerySet.t Application.t) (s : string)
    (conf : Urls.urlconf) (db : Store) (obj : Payment.t) :
  PaymentAdmin.application_link conf (ApplicationAdmin.update_status q s db) obj
  = PaymentAdmin.application_link conf db obj.
Proof.
  unfold PaymentAdmin.application_link, get_application,
    ApplicationAdmin.update_status, QuerySet.update. cbn [applications].
  rewrite find_map_same by (intros a; destruct (q a); reflexivity).
  destruct (find _ (applications db)) as [a|]; [|reflexivity].
  cbn [option_map bind]. destruct (q a); reflexivity.
Qed.

Lemma update_status_columns (q : @QuerySet.t Application.t) (s : string)
    (conf : Urls.urlconf) (db : Store) :
  (forall d, DepartmentAdmin.application_count conf (ApplicationAdmin.update_status q s db) d
             = DepartmentAdmin.application_count conf db d)
  /\ (forall p, PaymentAdmin.application_link conf (ApplicationAdmin.update_status q s db) p
                = PaymentAdmin.application_link conf db p)
  /\ (forall a a', Application.id a' = Application.id a ->
        ApplicationAdmin.has_payment (ApplicationAdmin.update_status q s db) a'
        = ApplicationAdmin.has_payment db a
        /\ ApplicationAdmin.file_count (ApplicationAdmin.update_status q s db) a'
           = ApplicationAdmin.file_count db a).
Proof.
  split; [|split].
  - intros d. unfold DepartmentAdmin.application_count.
    rewrite update_status_count. reflexivity.
  - intros p. apply update_status_link.
  - intros a a' Hid.
    unfold ApplicationAdmin.has_payment, ApplicationAdmin.file_count,
      payment_set, applicationfile_set.
    rewrite Hid. split; reflexivity.
Qed.

(** X18: no run of bulk actions and list edits changes a derived
    column.  After the run, under any URL configuration, the application
    count of every department and the application link of every payment
    are what they were (value or exception), and so are the payment cell
    and the file count of every application. *)
Theorem run_keeps_derived_columns (db db' : Store) (ops : list op) :
  run db ops db' ->
  forall conf : Urls.urlconf,
    (forall d, DepartmentAdmin.application_count conf db' d
               = DepartmentAdmin.application_count conf db d)
    /\ (forall p, PaymentAdmin.application_link conf db' p
                  = PaymentAdmin.application_link conf db p)
    /\ (forall a a', Application.id a' = Application.id a ->
          ApplicationAdmin.has_payment db' a' = ApplicationAdmin.has_payment db a
          /\ ApplicationAdmin.file_count db' a' = ApplicationAdmin.file_count db a).
Proof.
  intros Hrun conf. induction Hrun as [db|db o db1 ops db2 Hstep _ IH].
  - split; [reflexivity|]. split; [reflexivity|].
    intros a a' Hid. unfold ApplicationAdmin.has_payment, ApplicationAdmin.file_count,
      payment_set, applicationfile_set. rewrite Hid. split; reflexivity.
  - destruct (step_is_update _ _ _ Hstep) as (q & s & ->).
    destruct (update_status_columns q s conf db) as (U1 & U2 & U3).
    destruct IH as (I1 & I2 & I3). split; [|split].
    + intros d. rewrite I1. apply U1.
    + intros p. rewrite I2. apply U2.
    + intros a a' Hid. destruct (I3 a a' Hid) as [-> ->]. apply (U3 a a eq_refl).
Qed.

Lemma run_keeps_derived_columns_witness :
  let db' :=
    ApplicationAdmin.mark_as_rejected (ApplicationAdmin.selected [3])
      (ApplicationAdmin.list_edit 2 [("status", "pending")]
         (ApplicationAdmin.mark_as_approved (ApplicationAdmin.selected [1; 3])
            Sample.store)) in
  (forall d, DepartmentAdmin.application_count project_urlconf db' d
             = DepartmentAdmin.application_count project_urlconf Sample.store d)
  /\ (forall p, PaymentAdmin.application_link project_urlconf db' p
                = PaymentAdmin.application_link project_urlconf Sample.store p)
  /\ (forall a a', Application.id a' = Application.id a ->
        ApplicationAdmin.has_payment db' a'
        = ApplicationAdmin.has_payment Sample.store a
        /\ ApplicationAdmin.file_count db' a'
           = ApplicationAdmin.file_count Sample.store a).
Proof.
  exact (run_keeps_derived_columns _ _ _ sample_run project_urlconf).
Defined.
